(** * joystick_drawer: a joystick-to-drawing-tool input handler

    Shallow embedding of [joystick_drawer.c], a Linux input handler that binds
    to a joystick and re-emits its events on a virtual mouse and a virtual
    keyboard.  The module's static variables and the state of the input core
    it talks to are gathered in one [world]; every function of the module is a
    state-passing computation over it.  Calls into the input core are recorded
    in a chronological trace, and the answers of the fallible ones (allocation,
    registration, opening) are supplied by the caller, so that every failure
    path of the module can be exercised. *)

From Stdlib Require Import ZArith NArith List String Bool Lia Permutation.
Import ListNotations.
Open Scope Z_scope.

(** ** C integers

    [value], [sensitivity], [joystick_id] and every error code are C [int]s:
    32-bit two's complement.  The kernel is built with wrapping signed
    arithmetic, which [to_int] writes out. *)

Module CInt.

Definition int_min : Z := - 2 ^ 31.
Definition int_max : Z := 2 ^ 31 - 1.

Definition in_int (z : Z) : Prop := int_min <= z <= int_max.

Definition to_int (z : Z) : Z := (z + 2 ^ 31) mod 2 ^ 32 - 2 ^ 31.

Definition int_sub (a b : Z) : Z := to_int (a - b).
Definition int_mul (a b : Z) : Z := to_int (a * b).
(* C division truncates toward zero *)
Definition int_div (a b : Z) : Z := to_int (Z.quot a b).

End CInt.
Export CInt.

(** ** Constants of the kernel headers

    Values of [linux/input-event-codes.h] and [errno-base.h]. *)

Module Codes.

Definition EV_KEY : Z := 1.
Definition EV_REL : Z := 2.
Definition EV_ABS : Z := 3.

Definition ABS_X : Z := 0.
Definition ABS_Y : Z := 1.
Definition REL_X : Z := 0.
Definition REL_Y : Z := 1.

Definition BTN_LEFT : Z := 272.    (* 0x110 *)
Definition BTN_RIGHT : Z := 273.   (* 0x111 *)
Definition BTN_MIDDLE : Z := 274.  (* 0x112 *)
Definition BTN_A : Z := 304.       (* 0x130 *)
Definition BTN_B : Z := 305.       (* 0x131 *)
Definition BTN_X : Z := 307.       (* 0x133 *)
Definition BTN_Y : Z := 308.       (* 0x134 *)
Definition BTN_TL : Z := 310.      (* 0x136 *)

Definition KEY_E : Z := 18.
Definition KEY_R : Z := 19.
Definition KEY_LEFTBRACE : Z := 26.
Definition KEY_RIGHTBRACE : Z := 27.
Definition KEY_G : Z := 34.
Definition KEY_C : Z := 46.
Definition KEY_B : Z := 48.

Definition BUS_VIRTUAL : Z := 6.

Definition ENOMEM : Z := 12.
Definition ENODEV : Z := 19.

End Codes.
Export Codes.

(** ** Data model *)

(** Addresses; [NULL] is 0. *)
Definition ptr : Type := N.
Definition NULL : ptr := 0%N.

(** A bitmap ([evbit], [absbit], ...) is the integer whose binary digits are
    its bits. *)
Definition bitmap : Type := Z.

Record input_id : Type := mk_input_id {
  bustype : Z;
  vendor : Z;
  product : Z;
  version : Z
}.

Record input_dev : Type := mk_input_dev {
  name : string;
  phys : string;
  id : input_id;
  evbit : bitmap;
  keybit : bitmap;
  relbit : bitmap;
  absbit : bitmap
}.

(** [struct input_handle], the Binding record.  [h_dev] is the bound device
    ([None] in a freshly zeroed record), [h_handler] the address of the
    handler. *)
Record input_handle : Type := mk_input_handle {
  h_dev : option input_dev;
  h_handler : ptr;
  h_name : string
}.

(** The two module parameters. *)
Record params : Type := mk_params {
  joystick_id : Z;
  sensitivity : Z
}.

Definition default_params : params := mk_params (-1) 5.

Inductive loglevel : Type := KERN_INFO | KERN_ERR.

(** Calls into the kernel, with the answer of those that have one. *)
Inductive call : Type :=
| TestBit (nr : Z) (res : bool)
| Kzalloc (res : ptr)
| Kfree (p : ptr)
| InputRegisterHandle (h : ptr) (res : Z)
| InputUnregisterHandle (h : ptr)
| InputOpenDevice (h : ptr) (res : Z)
| InputCloseDevice (h : ptr)
| InputAllocateDevice (res : ptr)
| InputFreeDevice (d : ptr)
| InputRegisterDevice (d : ptr) (res : Z)
| InputUnregisterDevice (d : ptr)
| InputReportRel (d : ptr) (code value : Z)
| InputReportKey (d : ptr) (code value : Z)
| InputSync (d : ptr)
| Printk (lvl : loglevel) (msg : string).

(** The module's statics ([virtual_mouse], [virtual_keyboard],
    [joystick_handle]) and the state of the input core: the records and
    devices that are allocated, the devices and handles that are registered,
    the handles that are open, and the trace of all calls, oldest first.
    The collections are lists used as multisets: acquiring puts an entry in
    front, releasing removes the first entry with that address. *)
Record world : Type := mk_world {
  virtual_mouse : ptr;
  virtual_keyboard : ptr;
  joystick_handle : ptr;
  dev_heap : list (ptr * input_dev);
  dev_registered : list ptr;
  handle_heap : list (ptr * input_handle);
  handle_registered : list ptr;
  handle_open : list ptr;
  trace : list call
}.

(** The world at module load: statics zeroed, nothing of ours in the core. *)
Definition world_init : world :=
  mk_world NULL NULL NULL [] [] [] [] [] [].

(** *** Multiset and heap operations *)

Fixpoint remove_first (p : ptr) (l : list ptr) : list ptr :=
  match l with
  | [] => []
  | q :: l' => if N.eqb p q then l' else q :: remove_first p l'
  end.

Section Heap.
Context {A : Type}.

Fixpoint heap_lookup (p : ptr) (h : list (ptr * A)) : option A :=
  match h with
  | [] => None
  | (q, a) :: h' => if N.eqb p q then Some a else heap_lookup p h'
  end.

Fixpoint heap_update (p : ptr) (f : A -> A) (h : list (ptr * A))
  : list (ptr * A) :=
  match h with
  | [] => []
  | (q, a) :: h' =>
      if N.eqb p q then (q, f a) :: h' else (q, a) :: heap_update p f h'
  end.

Fixpoint heap_free (p : ptr) (h : list (ptr * A)) : list (ptr * A) :=
  match h with
  | [] => []
  | (q, a) :: h' => if N.eqb p q then h' else (q, a) :: heap_free p h'
  end.
End Heap.

(** *** Field updates of [world] *)

Definition set_virtual_mouse (p : ptr) (w : world) : world :=
  mk_world p (virtual_keyboard w) (joystick_handle w) (dev_heap w)
    (dev_registered w) (handle_heap w) (handle_registered w) (handle_open w)
    (trace w).

Definition set_virtual_keyboard (p : ptr) (w : world) : world :=
  mk_world (virtual_mouse w) p (joystick_handle w) (dev_heap w)
    (dev_registered w) (handle_heap w) (handle_registered w) (handle_open w)
    (trace w).

Definition set_joystick_handle (p : ptr) (w : world) : world :=
  mk_world (virtual_mouse w) (virtual_keyboard w) p (dev_heap w)
    (dev_registered w) (handle_heap w) (handle_registered w) (handle_open w)
    (trace w).

Definition set_dev_heap (h : list (ptr * input_dev)) (w : world) : world :=
  mk_world (virtual_mouse w) (virtual_keyboard w) (joystick_handle w) h
    (dev_registered w) (handle_heap w) (handle_registered w) (handle_open w)
    (trace w).

Definition set_dev_registered (l : list ptr) (w : world) : world :=
  mk_world (virtual_mouse w) (virtual_keyboard w) (joystick_handle w)
    (dev_heap w) l (handle_heap w) (handle_registered w) (handle_open w)
    (trace w).

Definition set_handle_heap (h : list (ptr * input_handle)) (w : world)
  : world :=
  mk_world (virtual_mouse w) (virtual_keyboard w) (joystick_handle w)
    (dev_heap w) (dev_registered w) h (handle_registered w) (handle_open w)
    (trace w).

Definition set_handle_registered (l : list ptr) (w : world) : world :=
  mk_world (virtual_mouse w) (virtual_keyboard w) (joystick_handle w)
    (dev_heap w) (dev_registered w) (handle_heap w) l (handle_open w)
    (trace w).

Definition set_handle_open (l : list ptr) (w : world) : world :=
  mk_world (virtual_mouse w) (virtual_keyboard w) (joystick_handle w)
    (dev_heap w) (dev_registered w) (handle_heap w) (handle_registered w) l
    (trace w).

Definition log (c : call) (w : world) : world :=
  mk_world (virtual_mouse w) (virtual_keyboard w) (joystick_handle w)
    (dev_heap w) (dev_registered w) (handle_heap w) (handle_registered w)
    (handle_open w) (trace w ++ [c]).

(** ** The state monad of the module *)

Definition M (A : Type) : Type := world -> A * world.

Definition ret {A : Type} (a : A) : M A := fun w => (a, w).

Definition bind {A B : Type} (m : M A) (k : A -> M B) : M B :=
  fun w => let (a, w') := m w in k a w'.

Definition gets {A : Type} (f : world -> A) : M A := fun w => (f w, w).

Definition modify (f : world -> world) : M unit := fun w => (tt, f w).

Declare Scope joy_scope.
Delimit Scope joy_scope with joy.
Notation "x <- m ;; k" := (bind m (fun x => k))
  (at level 61, m at next level, right associativity) : joy_scope.
Notation "m ;; k" := (bind m (fun _ => k))
  (at level 61, right associativity) : joy_scope.
Open Scope joy_scope.

(** ** The kernel interface, as the module uses it *)

Definition test_bit (nr : Z) (addr : bitmap) : M bool :=
  let b := Z.testbit addr nr in
  modify (log (TestBit nr b)) ;; ret b.

Definition set_bit (nr : Z) (addr : bitmap) : bitmap := Z.setbit addr nr.

Definition printk (lvl : loglevel) (msg : string) : M unit :=
  modify (log (Printk lvl msg)).

Definition zero_handle : input_handle := mk_input_handle None NULL "".

(** [kzalloc] answers [res]: [NULL], or the address of a new zeroed record. *)
Definition kzalloc (res : ptr) : M ptr :=
  modify (log (Kzalloc res)) ;;
  (if N.eqb res NULL then ret tt
   else modify (fun w => set_handle_heap ((res, zero_handle) :: handle_heap w) w)) ;;
  ret res.

Definition kfree (p : ptr) : M unit :=
  modify (log (Kfree p)) ;;
  modify (fun w => set_handle_heap (heap_free p (handle_heap w)) w).

(** Store through a handle pointer: [handle->field = ...]. *)
Definition handle_store (p : ptr) (f : input_handle -> input_handle) : M unit :=
  modify (fun w => set_handle_heap (heap_update p f (handle_heap w)) w).

(** [input_register_handle] answers [res]; the handle is registered exactly
    when the answer is 0. *)
Definition input_register_handle (res : Z) (h : ptr) : M Z :=
  modify (log (InputRegisterHandle h res)) ;;
  (if res =? 0 then
     modify (fun w => set_handle_registered (h :: handle_registered w) w)
   else ret tt) ;;
  ret res.

Definition input_unregister_handle (h : ptr) : M unit :=
  modify (log (InputUnregisterHandle h)) ;;
  modify (fun w => set_handle_registered (remove_first h (handle_registered w)) w).

Definition input_open_device (res : Z) (h : ptr) : M Z :=
  modify (log (InputOpenDevice h res)) ;;
  (if res =? 0 then modify (fun w => set_handle_open (h :: handle_open w) w)
   else ret tt) ;;
  ret res.

Definition input_close_device (h : ptr) : M unit :=
  modify (log (InputCloseDevice h)) ;;
  modify (fun w => set_handle_open (remove_first h (handle_open w)) w).

Definition zero_dev : input_dev :=
  mk_input_dev "" "" (mk_input_id 0 0 0 0) 0 0 0 0.

Definition input_allocate_device (res : ptr) : M ptr :=
  modify (log (InputAllocateDevice res)) ;;
  (if N.eqb res NULL then ret tt
   else modify (fun w => set_dev_heap ((res, zero_dev) :: dev_heap w) w)) ;;
  ret res.

Definition input_free_device (d : ptr) : M unit :=
  modify (log (InputFreeDevice d)) ;;
  modify (fun w => set_dev_heap (heap_free d (dev_heap w)) w).

(** Store through a device pointer: [dev->field = ...], [set_bit(.., dev->..)]. *)
Definition dev_store (d : ptr) (f : input_dev -> input_dev) : M unit :=
  modify (fun w => set_dev_heap (heap_update d f (dev_heap w)) w).

Definition input_register_device (res : Z) (d : ptr) : M Z :=
  modify (log (InputRegisterDevice d res)) ;;
  (if res =? 0 then
     modify (fun w => set_dev_registered (d :: dev_registered w) w)
   else ret tt) ;;
  ret res.

(** Unregistering a device also drops the module's reference to it: the
    device object is released. *)
Definition input_unregister_device (d : ptr) : M unit :=
  modify (log (InputUnregisterDevice d)) ;;
  modify (fun w => set_dev_registered (remove_first d (dev_registered w)) w) ;;
  modify (fun w => set_dev_heap (heap_free d (dev_heap w)) w).

Definition input_report_rel (d : ptr) (code value : Z) : M unit :=
  modify (log (InputReportRel d code value)).

Definition input_report_key (d : ptr) (code value : Z) : M unit :=
  modify (log (InputReportKey d code value)).

Definition input_sync (d : ptr) : M unit :=
  modify (log (InputSync d)).

(** ** joystick_event *)

Definition center : Z := 128.

Definition joystick_event (cfg : params) (handle : ptr) (type code value : Z)
  : M unit :=
  if type =? EV_ABS then
    if code =? ABS_X then
      let scaled_value :=
        int_div (int_mul (int_sub value center) (sensitivity cfg)) 32 in
      vm <- gets virtual_mouse ;;
      input_report_rel vm REL_X scaled_value ;;
      vm <- gets virtual_mouse ;;
      input_sync vm
    else if code =? ABS_Y then
      let scaled_value :=
        int_div (int_mul (int_sub value center) (sensitivity cfg)) 32 in
      vm <- gets virtual_mouse ;;
      input_report_rel vm REL_Y scaled_value ;;
      vm <- gets virtual_mouse ;;
      input_sync vm
    else ret tt
  else if type =? EV_KEY then
    if code =? BTN_TL then
      vm <- gets virtual_mouse ;;
      input_report_key vm BTN_LEFT value ;;
      vm <- gets virtual_mouse ;;
      input_sync vm
    else if code =? BTN_B then
      vk <- gets virtual_keyboard ;;
      input_report_key vk KEY_B value ;;
      vk <- gets virtual_keyboard ;;
      input_sync vk
    else if code =? BTN_X then
      vk <- gets virtual_keyboard ;;
      input_report_key vk KEY_E value ;;
      vk <- gets virtual_keyboard ;;
      input_sync vk
    else if code =? BTN_Y then
      vk <- gets virtual_keyboard ;;
      input_report_key vk KEY_RIGHTBRACE value ;;
      vk <- gets virtual_keyboard ;;
      input_sync vk
    else if code =? BTN_A then
      vk <- gets virtual_keyboard ;;
      input_report_key vk KEY_LEFTBRACE value ;;
      vk <- gets virtual_keyboard ;;
      input_sync vk
    else ret tt
  else ret tt.

(** ** joystick_connect and joystick_disconnect *)

Definition nl : string := String (Ascii.ascii_of_nat 10) "".

Definition with_h_dev (d : input_dev) (r : input_handle) : input_handle :=
  mk_input_handle (Some d) (h_handler r) (h_name r).
Definition with_h_handler (p : ptr) (r : input_handle) : input_handle :=
  mk_input_handle (h_dev r) p (h_name r).
Definition with_h_name (s : string) (r : input_handle) : input_handle :=
  mk_input_handle (h_dev r) (h_handler r) s.

(** What the kernel answers to the fallible calls of one [joystick_connect]. *)
Record connect_answers : Type := mk_connect_answers {
  ans_kzalloc : ptr;
  ans_register_handle : Z;
  ans_open_device : Z
}.

(** The candidate [dev] is passed by value (the module only reads it); the
    [id] argument of the C function is unused and left out. *)
Definition joystick_connect (cfg : params) (ans : connect_answers)
    (handler : ptr) (dev : input_dev) : M Z :=
  (* Skip devices that don't match our device id parameter *)
  if negb (joystick_id cfg =? -1) && negb (product (id dev) =? joystick_id cfg)
  then ret (- ENODEV)
  else
    (* Check if this is actually a joystick *)
    has_x <- test_bit ABS_X (absbit dev) ;;
    has_xy <- (if has_x then test_bit ABS_Y (absbit dev) else ret false) ;;
    if negb has_xy then ret (- ENODEV)
    else
      handle <- kzalloc (ans_kzalloc ans) ;;
      if N.eqb handle NULL then ret (- ENOMEM)
      else
        handle_store handle (with_h_dev dev) ;;
        handle_store handle (with_h_handler handler) ;;
        handle_store handle (with_h_name "joystick_drawer") ;;
        error <- input_register_handle (ans_register_handle ans) handle ;;
        if negb (error =? 0) then
          (* err_free_handle *)
          kfree handle ;;
          ret error
        else
          error <- input_open_device (ans_open_device ans) handle ;;
          if negb (error =? 0) then
            (* err_unregister_handle, then err_free_handle *)
            input_unregister_handle handle ;;
            kfree handle ;;
            ret error
          else
            modify (set_joystick_handle handle) ;;
            printk KERN_INFO
              ("joystick_drawer: Connected to " ++ name dev ++ nl) ;;
            ret 0.

(** [handle->dev->name] is read through two pointers; [None] stands for the
    fault of following a pointer that leads nowhere. *)
Definition joystick_disconnect (handle : ptr) (w : world)
  : option (unit * world) :=
  match heap_lookup handle (handle_heap w) with
  | Some r =>
      match h_dev r with
      | Some dev =>
          Some ((printk KERN_INFO
                   ("joystick_drawer: Disconnected from " ++ name dev ++ nl) ;;
                 input_close_device handle ;;
                 input_unregister_handle handle ;;
                 kfree handle) w)
      | None => None
      end
  | None => None
  end.

(** ** create_virtual_devices *)

Definition with_name (s : string) (d : input_dev) : input_dev :=
  mk_input_dev s (phys d) (id d) (evbit d) (keybit d) (relbit d) (absbit d).
Definition with_phys (s : string) (d : input_dev) : input_dev :=
  mk_input_dev (name d) s (id d) (evbit d) (keybit d) (relbit d) (absbit d).
Definition with_id (f : input_id -> input_id) (d : input_dev) : input_dev :=
  mk_input_dev (name d) (phys d) (f (id d)) (evbit d) (keybit d) (relbit d)
    (absbit d).
Definition with_evbit (f : bitmap -> bitmap) (d : input_dev) : input_dev :=
  mk_input_dev (name d) (phys d) (id d) (f (evbit d)) (keybit d) (relbit d)
    (absbit d).
Definition with_keybit (f : bitmap -> bitmap) (d : input_dev) : input_dev :=
  mk_input_dev (name d) (phys d) (id d) (evbit d) (f (keybit d)) (relbit d)
    (absbit d).
Definition with_relbit (f : bitmap -> bitmap) (d : input_dev) : input_dev :=
  mk_input_dev (name d) (phys d) (id d) (evbit d) (keybit d) (f (relbit d))
    (absbit d).

Definition with_bustype (z : Z) (i : input_id) : input_id :=
  mk_input_id z (vendor i) (product i) (version i).
Definition with_vendor (z : Z) (i : input_id) : input_id :=
  mk_input_id (bustype i) z (product i) (version i).
Definition with_product (z : Z) (i : input_id) : input_id :=
  mk_input_id (bustype i) (vendor i) z (version i).
Definition with_version (z : Z) (i : input_id) : input_id :=
  mk_input_id (bustype i) (vendor i) (product i) z.

(** [virtual_mouse->... = ...] and [virtual_keyboard->... = ...] *)
Definition mouse_store (f : input_dev -> input_dev) : M unit :=
  vm <- gets virtual_mouse ;; dev_store vm f.
Definition keyboard_store (f : input_dev -> input_dev) : M unit :=
  vk <- gets virtual_keyboard ;; dev_store vk f.

Record create_answers : Type := mk_create_answers {
  ans_alloc_mouse : ptr;
  ans_register_mouse : Z;
  ans_alloc_keyboard : ptr;
  ans_register_keyboard : Z
}.

(** The cleanup labels. *)
Definition err_unregister_mouse (error : Z) : M Z :=
  vm <- gets virtual_mouse ;;
  input_unregister_device vm ;;
  modify (set_virtual_mouse NULL) ;;
  ret error.

Definition err_free_keyboard (error : Z) : M Z :=
  vk <- gets virtual_keyboard ;;
  input_free_device vk ;;
  err_unregister_mouse error.

Definition err_free_mouse (error : Z) : M Z :=
  vm <- gets virtual_mouse ;;
  input_free_device vm ;;
  ret error.

Definition create_virtual_devices (ans : create_answers) : M Z :=
  (* Create virtual mouse *)
  p <- input_allocate_device (ans_alloc_mouse ans) ;;
  modify (set_virtual_mouse p) ;;
  vm <- gets virtual_mouse ;;
  if N.eqb vm NULL then
    printk KERN_ERR
      ("joystick_drawer: Not enough memory for virtual mouse" ++ nl) ;;
    ret (- ENOMEM)
  else
    mouse_store (with_name "Joystick Virtual Mouse") ;;
    mouse_store (with_phys "joydraw/mouse") ;;
    mouse_store (with_id (with_bustype BUS_VIRTUAL)) ;;
    mouse_store (with_id (with_vendor 0)) ;;
    mouse_store (with_id (with_product 0)) ;;
    mouse_store (with_id (with_version 0)) ;;
    mouse_store (with_evbit (set_bit EV_REL)) ;;
    mouse_store (with_relbit (set_bit REL_X)) ;;
    mouse_store (with_relbit (set_bit REL_Y)) ;;
    mouse_store (with_evbit (set_bit EV_KEY)) ;;
    mouse_store (with_keybit (set_bit BTN_LEFT)) ;;
    mouse_store (with_keybit (set_bit BTN_RIGHT)) ;;
    mouse_store (with_keybit (set_bit BTN_MIDDLE)) ;;
    vm <- gets virtual_mouse ;;
    error <- input_register_device (ans_register_mouse ans) vm ;;
    if negb (error =? 0) then
      printk KERN_ERR
        ("joystick_drawer: Failed to register virtual mouse" ++ nl) ;;
      err_free_mouse error
    else
      (* Create virtual keyboard *)
      p <- input_allocate_device (ans_alloc_keyboard ans) ;;
      modify (set_virtual_keyboard p) ;;
      vk <- gets virtual_keyboard ;;
      if N.eqb vk NULL then
        printk KERN_ERR
          ("joystick_drawer: Not enough memory for virtual keyboard" ++ nl) ;;
        err_unregister_mouse (- ENOMEM)
      else
        keyboard_store (with_name "Joystick Virtual Keyboard") ;;
        keyboard_store (with_phys "joydraw/keyboard") ;;
        keyboard_store (with_id (with_bustype BUS_VIRTUAL)) ;;
        keyboard_store (with_id (with_vendor 0)) ;;
        keyboard_store (with_id (with_product 0)) ;;
        keyboard_store (with_id (with_version 0)) ;;
        keyboard_store (with_evbit (set_bit EV_KEY)) ;;
        keyboard_store (with_keybit (set_bit KEY_B)) ;;
        keyboard_store (with_keybit (set_bit KEY_E)) ;;
        keyboard_store (with_keybit (set_bit KEY_C)) ;;
        keyboard_store (with_keybit (set_bit KEY_RIGHTBRACE)) ;;
        keyboard_store (with_keybit (set_bit KEY_LEFTBRACE)) ;;
        keyboard_store (with_keybit (set_bit KEY_R)) ;;
        keyboard_store (with_keybit (set_bit KEY_G)) ;;
        vk <- gets virtual_keyboard ;;
        error <- input_register_device (ans_register_keyboard ans) vk ;;
        if negb (error =? 0) then
          printk KERN_ERR
            ("joystick_drawer: Failed to register virtual keyboard" ++ nl) ;;
          err_free_keyboard error
        else ret 0.

(** ** Observations used by the statements *)

(** The world after the calls [cs] were logged, in that order, and nothing
    else happened. *)
Definition written (cs : list call) (w : world) : world :=
  fold_left (fun w' c => log c w') cs w.

(** The writes ([report], [sync]) that went to device [d]. *)
Definition writes_to (d : ptr) (c : call) : bool :=
  match c with
  | InputReportRel d' _ _ => N.eqb d' d
  | InputReportKey d' _ _ => N.eqb d' d
  | InputSync d' => N.eqb d' d
  | _ => false
  end.

Definition device_writes (d : ptr) (tr : list call) : list call :=
  filter (writes_to d) tr.

(** Each absolute axis with the relative axis it is forwarded to. *)
Definition axes : list (Z * Z) := [(ABS_X, REL_X); (ABS_Y, REL_Y)].

(** The acceptance predicate of [joystick_connect]. *)
Definition identity_ok (cfg : params) (dev : input_dev) : Prop :=
  joystick_id cfg = -1 \/ product (id dev) = joystick_id cfg.

Definition dual_axis (dev : input_dev) : Prop :=
  Z.testbit (absbit dev) ABS_X = true /\ Z.testbit (absbit dev) ABS_Y = true.

(** The Bindings that are live: the handles open for event delivery. *)
Definition at_most_one_binding (w : world) : Prop :=
  (List.length (handle_open w) <= 1)%nat.

(** A sequence of connect callbacks, each with the kernel's answers. *)
Fixpoint run_connects (cfg : params) (handler : ptr)
    (reqs : list (connect_answers * input_dev)) (w : world) : world :=
  match reqs with
  | [] => w
  | (ans, dev) :: reqs' =>
      run_connects cfg handler reqs'
        (snd (joystick_connect cfg ans handler dev w))
  end.

(** Sample candidates: two pads reporting ABS_X and ABS_Y, and a keyboard
    with no absolute axis. *)
Definition gamepad : input_dev :=
  mk_input_dev "Gamepad" "usb-1/input0" (mk_input_id 3 1118 654 1) 11 0 0 3.

Definition second_gamepad : input_dev :=
  mk_input_dev "Other pad" "usb-2/input0" (mk_input_id 3 1133 49693 1) 11 0 0 3.

Definition keyboard_dev : input_dev :=
  mk_input_dev "Keyboard" "usb-3/input0" (mk_input_id 3 1 1 1) 3 0 0 0.

(** The capability declarations that [create_virtual_devices] builds. *)
Definition virtual_mouse_decl : input_dev :=
  mk_input_dev "Joystick Virtual Mouse" "joydraw/mouse"
    (mk_input_id BUS_VIRTUAL 0 0 0)
    (set_bit EV_KEY (set_bit EV_REL 0))
    (set_bit BTN_MIDDLE (set_bit BTN_RIGHT (set_bit BTN_LEFT 0)))
    (set_bit REL_Y (set_bit REL_X 0))
    0.

Definition virtual_keyboard_decl : input_dev :=
  mk_input_dev "Joystick Virtual Keyboard" "joydraw/keyboard"
    (mk_input_id BUS_VIRTUAL 0 0 0)
    (set_bit EV_KEY 0)
    (set_bit KEY_G (set_bit KEY_R (set_bit KEY_LEFTBRACE
       (set_bit KEY_RIGHTBRACE (set_bit KEY_C (set_bit KEY_E
          (set_bit KEY_B 0)))))))
    0
    0.

(** ** The handler, module load and module unload *)

(** An entry of an [id_table]; only the fields that [joystick_ids] sets. *)
Record input_device_id : Type := mk_input_device_id {
  id_flags : Z;
  id_evbit : bitmap
}.

Definition INPUT_DEVICE_ID_MATCH_EVBIT : Z := 16.   (* 0x0010 *)

Definition BITS_PER_LONG : Z := 64.
Definition BIT_MASK (nr : Z) : Z := Z.shiftl 1 (nr mod BITS_PER_LONG).

(** Device matching for joysticks; the terminating entry ends the list. *)
Definition joystick_ids : list input_device_id :=
  [mk_input_device_id INPUT_DEVICE_ID_MATCH_EVBIT (BIT_MASK EV_ABS)].

(** The input core offers a device to a handler when an entry of the table
    matches it: for an entry that sets only event bits, when these are among
    the event bits of the device. *)
Definition input_match_device_id (i : input_device_id) (dev : input_dev)
  : bool :=
  Z.land (id_evbit i) (evbit dev) =? id_evbit i.

Definition input_match_device (ids : list input_device_id) (dev : input_dev)
  : bool :=
  existsb (fun i => input_match_device_id i dev) ids.

(** [input_register_handler(&joystick_handler)] answers [res]; when it is 0
    the core has offered every matching device that is present to
    [joystick_connect], whose result it does not use.  [handler] is the
    address of [joystick_handler]. *)
Definition input_register_handler (cfg : params) (handler : ptr) (res : Z)
    (present : list (connect_answers * input_dev)) : M Z :=
  (if res =? 0 then
     modify (run_connects cfg handler
               (filter (fun r => input_match_device joystick_ids (snd r))
                  present))
   else ret tt) ;;
  ret res.

(** [input_unregister_handler(&joystick_handler)] calls
    [joystick_disconnect] on every handle of the handler, oldest first. *)
Fixpoint disconnect_all (hs : list ptr) (w : world) : option world :=
  match hs with
  | [] => Some w
  | h :: hs' =>
      match joystick_disconnect h w with
      | Some (_, w') => disconnect_all hs' w'
      | None => None
      end
  end.

Definition input_unregister_handler (w : world) : option world :=
  disconnect_all (rev (handle_registered w)) w.

(** The block that the label [err_unregister_devices] of
    [joystick_drawer_init] and the body of [joystick_drawer_exit] both
    run. *)
Definition unregister_virtual_devices : M unit :=
  vk <- gets virtual_keyboard ;;
  (if negb (N.eqb vk NULL) then
     vk <- gets virtual_keyboard ;;
     input_unregister_device vk ;;
     modify (set_virtual_keyboard NULL)
   else ret tt) ;;
  vm <- gets virtual_mouse ;;
  (if negb (N.eqb vm NULL) then
     vm <- gets virtual_mouse ;;
     input_unregister_device vm ;;
     modify (set_virtual_mouse NULL)
   else ret tt).

Record init_answers : Type := mk_init_answers {
  ans_create : create_answers;
  ans_register_handler : Z;
  ans_present : list (connect_answers * input_dev)
}.

Definition joystick_drawer_init (cfg : params) (handler : ptr)
    (ans : init_answers) : M Z :=
  error <- create_virtual_devices (ans_create ans) ;;
  if negb (error =? 0) then ret error
  else
    error <- input_register_handler cfg handler (ans_register_handler ans)
               (ans_present ans) ;;
    if negb (error =? 0) then
      printk KERN_ERR
        ("joystick_drawer: Failed to register input handler" ++ nl) ;;
      (* err_unregister_devices *)
      unregister_virtual_devices ;;
      ret error
    else
      printk KERN_INFO ("joystick_drawer: Module loaded" ++ nl) ;;
      ret 0.

Definition joystick_drawer_exit (w : world) : option (unit * world) :=
  match input_unregister_handler w with
  | Some w1 =>
      Some ((unregister_virtual_devices ;;
             printk KERN_INFO ("joystick_drawer: Module unloaded" ++ nl)) w1)
  | None => None
  end.

(** ** Event streams *)

Record event : Type := mk_event {
  ev_type : Z;
  ev_code : Z;
  ev_value : Z
}.

(** The events of a bound device, delivered one after the other. *)
Fixpoint run_events (cfg : params) (handle : ptr) (evs : list event)
    (w : world) : world :=
  match evs with
  | [] => w
  | e :: evs' =>
      run_events cfg handle evs'
        (snd (joystick_event cfg handle (ev_type e) (ev_code e) (ev_value e)
                w))
  end.

(** What [joystick_event] writes for one event when the output devices are
    [vm] and [vk]: its trace from a world with nothing else in it. *)
Definition event_calls (cfg : params) (vm vk : ptr) (e : event) : list call :=
  trace (snd (joystick_event cfg NULL (ev_type e) (ev_code e) (ev_value e)
                (mk_world vm vk NULL [] [] [] [] [] []))).

(** A report is declared when the device it goes to has a record whose
    capability bits include the event type and the code. *)
Definition declared (h : list (ptr * input_dev)) (c : call) : Prop :=
  match c with
  | InputReportRel d code _ =>
      exists dev : input_dev,
        heap_lookup d h = Some dev /\
        Z.testbit (evbit dev) EV_REL = true /\
        Z.testbit (relbit dev) code = true
  | InputReportKey d code _ =>
      exists dev : input_dev,
        heap_lookup d h = Some dev /\
        Z.testbit (evbit dev) EV_KEY = true /\
        Z.testbit (keybit dev) code = true
  | _ => True
  end.

(** Every Binding record is registered and open, and is filled in. *)
Definition bindings_consistent (w : world) : Prop :=
  handle_registered w = map fst (handle_heap w) /\
  handle_open w = map fst (handle_heap w) /\
  Forall (fun pr : ptr * input_handle =>
            exists dev : input_dev,
              h_dev (snd pr) = Some dev /\
              h_name (snd pr) = "joystick_drawer"%string)
         (handle_heap w).

(** * Properties *)

(** ** C integer arithmetic *)

Lemma to_int_id (z : Z) : in_int z -> to_int z = z.
Proof.
  unfold in_int, to_int, int_min, int_max. intros H.
  rewrite Z.mod_small; lia.
Qed.

Lemma to_int_congr (a b k : Z) : a = b + k * 2 ^ 32 -> to_int a = to_int b.
Proof.
  intros ->. unfold to_int.
  replace (b + k * 2 ^ 32 + 2 ^ 31) with (b + 2 ^ 31 + k * 2 ^ 32) by ring.
  now rewrite Z_mod_plus_full.
Qed.

Lemma to_int_spec (z : Z) : exists k, to_int z = z + k * 2 ^ 32.
Proof.
  exists (- ((z + 2 ^ 31) / 2 ^ 32)). unfold to_int.
  pose proof (Z.div_mod (z + 2 ^ 31) (2 ^ 32)) as H.
  assert (E : 2 ^ 32 <> 0) by lia. specialize (H E). lia.
Qed.

Lemma to_int_range (z : Z) : in_int (to_int z).
Proof.
  unfold in_int, to_int, int_min, int_max.
  pose proof (Z.mod_pos_bound (z + 2 ^ 31) (2 ^ 32)). lia.
Qed.

Lemma int_mul_sub (v c s : Z) :
  int_mul (int_sub v c) s = to_int ((v - c) * s).
Proof.
  unfold int_mul, int_sub.
  destruct (to_int_spec (v - c)) as [k Hk]. rewrite Hk.
  apply to_int_congr with (k := k * s). ring.
Qed.

Lemma quot32_range (z : Z) : in_int z -> in_int (z ÷ 32).
Proof.
  unfold in_int, int_min, int_max. intros H.
  destruct (Z.le_gt_cases 0 z) as [Hz | Hz].
  - pose proof (Z.quot_pos z 32 Hz ltac:(lia)).
    assert (z ÷ 32 <= z) by (apply Z.quot_le_upper_bound; lia). lia.
  - assert (Hq : z ÷ 32 = - ((- z) ÷ 32)).
    { rewrite Z.quot_opp_l by lia. lia. }
    pose proof (Z.quot_pos (- z) 32 ltac:(lia) ltac:(lia)).
    assert (- z ÷ 32 <= - z) by (apply Z.quot_le_upper_bound; lia). lia.
Qed.

(** The scaling expression of [joystick_event]: the product as a C [int],
    divided by 32 toward zero. *)
Lemma scaled_value_wrapped (v s : Z) :
  int_div (int_mul (int_sub v center) s) 32 = to_int ((v - center) * s) ÷ 32.
Proof.
  unfold int_div. rewrite int_mul_sub.
  apply to_int_id, quot32_range, to_int_range.
Qed.

Lemma to_int_opp (z : Z) :
  to_int z <> int_min -> to_int (- z) = - to_int z.
Proof.
  intros H. destruct (to_int_spec z) as [k Hk].
  rewrite (to_int_congr (- z) (- to_int z) k) by lia.
  apply to_int_id. pose proof (to_int_range z) as R.
  unfold in_int, int_min, int_max in *. lia.
Qed.

(** ** joystick_event, case by case *)

Section EventCases.
Variables (cfg : params) (handle : ptr) (value : Z) (w : world).

Let scaled : Z :=
  int_div (int_mul (int_sub value center) (sensitivity cfg)) 32.

Lemma event_abs (code rel : Z) :
  In (code, rel) axes ->
  joystick_event cfg handle EV_ABS code value w =
    (tt, written [InputReportRel (virtual_mouse w) rel scaled;
                  InputSync (virtual_mouse w)] w).
Proof.
  intros [E | [E | []]]; inversion E; subst; reflexivity.
Qed.

Lemma event_abs_other (code : Z) :
  code <> ABS_X -> code <> ABS_Y ->
  joystick_event cfg handle EV_ABS code value w = (tt, w).
Proof.
  intros HX HY. unfold joystick_event.
  change (EV_ABS =? EV_ABS) with true. cbv iota.
  destruct (Z.eqb_spec code ABS_X); [contradiction |].
  destruct (Z.eqb_spec code ABS_Y); [contradiction |].
  reflexivity.
Qed.

Lemma event_key_mouse :
  joystick_event cfg handle EV_KEY BTN_TL value w =
    (tt, written [InputReportKey (virtual_mouse w) BTN_LEFT value;
                  InputSync (virtual_mouse w)] w).
Proof. reflexivity. Qed.

Lemma event_key_keyboard (code key : Z) :
  In (code, key)
     [(BTN_B, KEY_B); (BTN_X, KEY_E); (BTN_Y, KEY_RIGHTBRACE);
      (BTN_A, KEY_LEFTBRACE)] ->
  joystick_event cfg handle EV_KEY code value w =
    (tt, written [InputReportKey (virtual_keyboard w) key value;
                  InputSync (virtual_keyboard w)] w).
Proof.
  intros [E | [E | [E | [E | []]]]]; inversion E; subst; reflexivity.
Qed.

Lemma event_key_other (code : Z) :
  ~ In code [BTN_TL; BTN_B; BTN_X; BTN_Y; BTN_A] ->
  joystick_event cfg handle EV_KEY code value w = (tt, w).
Proof.
  intros H. unfold joystick_event.
  change (EV_KEY =? EV_ABS) with false.
  change (EV_KEY =? EV_KEY) with true. cbv iota.
  repeat match goal with
         | |- context [?c =? ?k] =>
             destruct (Z.eqb_spec c k);
             [exfalso; apply H; subst; simpl; tauto |]
         end.
  reflexivity.
Qed.

Lemma event_other_type (type code : Z) :
  type <> EV_ABS -> type <> EV_KEY ->
  joystick_event cfg handle type code value w = (tt, w).
Proof.
  intros HA HK. unfold joystick_event.
  destruct (Z.eqb_spec type EV_ABS); [contradiction |].
  destruct (Z.eqb_spec type EV_KEY); [contradiction |].
  reflexivity.
Qed.
End EventCases.

Lemma trace_written (cs : list call) (w : world) :
  trace (written cs w) = trace w ++ cs.
Proof.
  revert w. induction cs as [| c cs IH]; intros w; simpl.
  - now rewrite app_nil_r.
  - unfold written in IH. rewrite IH. simpl. now rewrite <- app_assoc.
Qed.

Lemma device_writes_app (d : ptr) (tr cs : list call) :
  device_writes d (tr ++ cs) = device_writes d tr ++ device_writes d cs.
Proof. apply filter_app. Qed.

(** C1. An absolute-axis event on ABS_X or ABS_Y with raw value [v] makes the
    translator report, on the matching relative axis of the pointer device,
    the motion [(v - 128) * sensitivity / 32], the product taken as a C [int]
    and the division truncating toward zero, and then flush the pointer
    device; nothing else happens.  Whenever the product fits an [int] the
    motion is the quotient of the integers.  With sensitivity 5: 128 gives 0,
    160 gives 5, 96 gives -5, 143 gives 2. *)
Theorem axis_event_relative_motion :
  (forall (cfg : params) (handle : ptr) (code rel v : Z) (w : world),
      In (code, rel) axes ->
      exists m : Z,
        joystick_event cfg handle EV_ABS code v w =
          (tt, written [InputReportRel (virtual_mouse w) rel m;
                        InputSync (virtual_mouse w)] w) /\
        m = to_int ((v - 128) * sensitivity cfg) ÷ 32 /\
        (in_int ((v - 128) * sensitivity cfg) ->
         m = ((v - 128) * sensitivity cfg) ÷ 32))
  /\
  (forall (jid : Z) (handle : ptr) (code rel v q : Z) (w : world),
      In (code, rel) axes ->
      In (v, q) [(128, 0); (160, 5); (96, -5); (143, 2)] ->
      joystick_event (mk_params jid 5) handle EV_ABS code v w =
        (tt, written
               [InputReportRel (virtual_mouse w) rel q;
                InputSync (virtual_mouse w)] w)).
Proof.
  split.
  - intros cfg handle code rel v w Hax.
    rewrite (event_abs cfg handle v w code rel Hax).
    rewrite scaled_value_wrapped. change center with 128.
    eexists. split; [reflexivity |]. split; [reflexivity |].
    intros Hfit. now rewrite (to_int_id _ Hfit).
  - intros jid handle code rel v q w Hax Hv.
    rewrite (event_abs _ handle v w code rel Hax).
    destruct Hv as [E | [E | [E | [E | []]]]]; inversion E; subst;
      reflexivity.
Qed.

Lemma axis_event_relative_motion_witness :
  In (ABS_Y, REL_Y) axes /\
  In (143, 2) [(128, 0); (160, 5); (96, -5); (143, 2)] /\
  in_int ((143 - 128) * sensitivity (mk_params (-1) 5)) /\
  joystick_event (mk_params (-1) 5) 7%N EV_ABS ABS_Y 143 world_init =
    (tt, written [InputReportRel NULL REL_Y 2; InputSync NULL] world_init) /\
  exists m : Z,
    joystick_event (mk_params (-1) 5) 7%N EV_ABS ABS_Y 143 world_init =
      (tt, written [InputReportRel NULL REL_Y m; InputSync NULL] world_init) /\
    m = ((143 - 128) * 5) ÷ 32.
Proof.
  assert (Hax : In (ABS_Y, REL_Y) axes) by (simpl; auto).
  assert (Hv : In (143, 2) [(128, 0); (160, 5); (96, -5); (143, 2)])
    by (simpl; auto).
  assert (Hfit : in_int ((143 - 128) * sensitivity (mk_params (-1) 5)))
    by (unfold in_int, int_min, int_max; simpl; lia).
  split; [exact Hax |]. split; [exact Hv |]. split; [exact Hfit |].
  split; [exact (proj2 axis_event_relative_motion (-1) 7%N ABS_Y REL_Y 143 2
                   world_init Hax Hv) |].
  destruct (proj1 axis_event_relative_motion (mk_params (-1) 5) 7%N ABS_Y
              REL_Y 143 world_init Hax) as (m & E & _ & Hm).
  exists m. split; [exact E | exact (Hm Hfit)].
Defined.

(** C2. Button events: BTN_TL reports BTN_LEFT = value on the pointer device;
    BTN_B, BTN_X, BTN_Y and BTN_A report KEY_B, KEY_E, KEY_RIGHTBRACE and
    KEY_LEFTBRACE = value on the key-emitter device; each report is followed
    by a flush of the same device.  Every other button code, and every event
    type other than EV_ABS and EV_KEY, leaves the world as it was: no output
    and no error. *)
Theorem key_event_mapping (cfg : params) (handle : ptr) (value : Z)
    (w : world) :
  joystick_event cfg handle EV_KEY BTN_TL value w =
    (tt, written [InputReportKey (virtual_mouse w) BTN_LEFT value;
                  InputSync (virtual_mouse w)] w)
  /\ joystick_event cfg handle EV_KEY BTN_B value w =
    (tt, written [InputReportKey (virtual_keyboard w) KEY_B value;
                  InputSync (virtual_keyboard w)] w)
  /\ joystick_event cfg handle EV_KEY BTN_X value w =
    (tt, written [InputReportKey (virtual_keyboard w) KEY_E value;
                  InputSync (virtual_keyboard w)] w)
  /\ joystick_event cfg handle EV_KEY BTN_Y value w =
    (tt, written [InputReportKey (virtual_keyboard w) KEY_RIGHTBRACE value;
                  InputSync (virtual_keyboard w)] w)
  /\ joystick_event cfg handle EV_KEY BTN_A value w =
    (tt, written [InputReportKey (virtual_keyboard w) KEY_LEFTBRACE value;
                  InputSync (virtual_keyboard w)] w)
  /\ (forall code : Z,
        ~ In code [BTN_TL; BTN_B; BTN_X; BTN_Y; BTN_A] ->
        joystick_event cfg handle EV_KEY code value w = (tt, w))
  /\ (forall type code : Z,
        type <> EV_ABS -> type <> EV_KEY ->
        joystick_event cfg handle type code value w = (tt, w)).
Proof.
  repeat split; try reflexivity.
  - apply event_key_other.
  - apply event_other_type.
Qed.

Lemma key_event_mapping_witness :
  ~ In 311 [BTN_TL; BTN_B; BTN_X; BTN_Y; BTN_A] /\
  joystick_event default_params 7%N EV_KEY 311 1 world_init = (tt, world_init)
  /\ EV_REL <> EV_ABS /\ EV_REL <> EV_KEY /\
  joystick_event default_params 7%N EV_REL REL_X 4 world_init = (tt, world_init).
Proof.
  assert (H1 : ~ In 311 [BTN_TL; BTN_B; BTN_X; BTN_Y; BTN_A])
    by (simpl; intuition discriminate).
  assert (H2 : EV_REL <> EV_ABS) by discriminate.
  assert (H3 : EV_REL <> EV_KEY) by discriminate.
  pose proof (key_event_mapping default_params 7%N 1 world_init) as K1.
  pose proof (key_event_mapping default_params 7%N 4 world_init) as K2.
  split; [exact H1 |].
  split; [exact (proj1 (proj2 (proj2 (proj2 (proj2 (proj2 K1))))) 311 H1) |].
  split; [exact H2 |]. split; [exact H3 |].
  exact (proj2 (proj2 (proj2 (proj2 (proj2 (proj2 K2))))) EV_REL REL_X H2 H3).
Defined.




(** ** joystick_connect, path by path *)

Ltac run_monad :=
  cbv [bind ret gets modify test_bit printk kzalloc kfree handle_store
       input_register_handle input_unregister_handle input_open_device
       input_close_device input_allocate_device input_free_device dev_store
       input_register_device input_unregister_device mouse_store
       keyboard_store err_unregister_mouse err_free_keyboard err_free_mouse
       written fold_left
       log set_handle_heap set_handle_registered set_handle_open
       set_joystick_handle set_dev_heap set_dev_registered set_virtual_mouse
       set_virtual_keyboard
       virtual_mouse virtual_keyboard joystick_handle dev_heap dev_registered
       handle_heap handle_registered handle_open trace heap_update heap_free
       remove_first].

Lemma world_eta (w : world) :
  mk_world (virtual_mouse w) (virtual_keyboard w) (joystick_handle w)
    (dev_heap w) (dev_registered w) (handle_heap w) (handle_registered w)
    (handle_open w) (trace w) = w.
Proof. now destruct w. Qed.

Section ConnectPaths.
Variables (cfg : params) (ans : connect_answers) (handler : ptr)
          (dev : input_dev) (w : world).

Lemma identity_check_passes :
  identity_ok cfg dev ->
  negb (joystick_id cfg =? -1) && negb (product (id dev) =? joystick_id cfg)
  = false.
Proof.
  intros [H | H].
  - rewrite H. reflexivity.
  - rewrite H, Z.eqb_refl. apply andb_false_r.
Qed.

Lemma connect_identity_mismatch :
  joystick_id cfg <> -1 -> product (id dev) <> joystick_id cfg ->
  joystick_connect cfg ans handler dev w = (- ENODEV, w).
Proof.
  intros H1 H2. unfold joystick_connect.
  destruct (Z.eqb_spec (joystick_id cfg) (-1)); [contradiction |].
  destruct (Z.eqb_spec (product (id dev)) (joystick_id cfg));
    [contradiction |].
  reflexivity.
Qed.

Lemma connect_no_abs_x :
  identity_ok cfg dev -> Z.testbit (absbit dev) ABS_X = false ->
  joystick_connect cfg ans handler dev w =
    (- ENODEV, written [TestBit ABS_X false] w).
Proof.
  intros Hid HX. unfold joystick_connect.
  rewrite (identity_check_passes Hid). destruct w.
  run_monad. rewrite HX. reflexivity.
Qed.

Lemma connect_no_abs_y :
  identity_ok cfg dev -> Z.testbit (absbit dev) ABS_X = true ->
  Z.testbit (absbit dev) ABS_Y = false ->
  joystick_connect cfg ans handler dev w =
    (- ENODEV, written [TestBit ABS_X true; TestBit ABS_Y false] w).
Proof.
  intros Hid HX HY. unfold joystick_connect.
  rewrite (identity_check_passes Hid). destruct w.
  repeat (run_monad; rewrite ?HX, ?HY). reflexivity.
Qed.

Hypothesis Hid : identity_ok cfg dev.
Hypothesis Hcap : dual_axis dev.

Lemma connect_no_memory :
  ans_kzalloc ans = NULL ->
  joystick_connect cfg ans handler dev w =
    (- ENOMEM,
     written [TestBit ABS_X true; TestBit ABS_Y true; Kzalloc NULL] w).
Proof.
  intros Hk. destruct Hcap as [HX HY]. unfold joystick_connect.
  rewrite (identity_check_passes Hid). destruct w.
  repeat (run_monad; rewrite ?HX, ?HY, ?Hk; cbn [negb N.eqb NULL]).
  reflexivity.
Qed.

Lemma connect_register_fails :
  ans_kzalloc ans <> NULL -> ans_register_handle ans <> 0 ->
  joystick_connect cfg ans handler dev w =
    (ans_register_handle ans,
     written [TestBit ABS_X true; TestBit ABS_Y true;
              Kzalloc (ans_kzalloc ans);
              InputRegisterHandle (ans_kzalloc ans) (ans_register_handle ans);
              Kfree (ans_kzalloc ans)] w).
Proof.
  intros Hk Hr. destruct Hcap as [HX HY]. unfold joystick_connect.
  apply N.eqb_neq in Hk. apply Z.eqb_neq in Hr.
  rewrite (identity_check_passes Hid). destruct w.
  repeat (run_monad; rewrite ?HX, ?HY, ?Hk, ?Hr, ?N.eqb_refl; cbn [negb]).
  rewrite <- ?app_assoc. reflexivity.
Qed.

Lemma connect_open_fails :
  ans_kzalloc ans <> NULL -> ans_register_handle ans = 0 ->
  ans_open_device ans <> 0 ->
  joystick_connect cfg ans handler dev w =
    (ans_open_device ans,
     written [TestBit ABS_X true; TestBit ABS_Y true;
              Kzalloc (ans_kzalloc ans);
              InputRegisterHandle (ans_kzalloc ans) 0;
              InputOpenDevice (ans_kzalloc ans) (ans_open_device ans);
              InputUnregisterHandle (ans_kzalloc ans);
              Kfree (ans_kzalloc ans)] w).
Proof.
  intros Hk Hr Ho. destruct Hcap as [HX HY]. unfold joystick_connect.
  apply N.eqb_neq in Hk. apply Z.eqb_neq in Ho.
  rewrite (identity_check_passes Hid). destruct w.
  repeat (run_monad;
          rewrite ?HX, ?HY, ?Hk, ?Hr, ?Ho, ?N.eqb_refl; cbn [negb Z.eqb]).
  rewrite <- ?app_assoc. reflexivity.
Qed.

Lemma connect_succeeds :
  ans_kzalloc ans <> NULL -> ans_register_handle ans = 0 ->
  ans_open_device ans = 0 ->
  joystick_connect cfg ans handler dev w =
    (0,
     mk_world (virtual_mouse w) (virtual_keyboard w) (ans_kzalloc ans)
       (dev_heap w) (dev_registered w)
       ((ans_kzalloc ans,
         mk_input_handle (Some dev) handler "joystick_drawer")
          :: handle_heap w)
       (ans_kzalloc ans :: handle_registered w)
       (ans_kzalloc ans :: handle_open w)
       (trace w ++
        [TestBit ABS_X true; TestBit ABS_Y true; Kzalloc (ans_kzalloc ans);
         InputRegisterHandle (ans_kzalloc ans) 0;
         InputOpenDevice (ans_kzalloc ans) 0;
         Printk KERN_INFO
           ("joystick_drawer: Connected to " ++ name dev ++ nl)])).
Proof.
  intros Hk Hr Ho. destruct Hcap as [HX HY]. unfold joystick_connect.
  apply N.eqb_neq in Hk.
  rewrite (identity_check_passes Hid). destruct w.
  repeat (run_monad;
          rewrite ?HX, ?HY, ?Hk, ?Hr, ?Ho, ?N.eqb_refl; cbn [negb Z.eqb]).
  rewrite <- ?app_assoc. reflexivity.
Qed.
End ConnectPaths.

Lemma written_eq (cs : list call) (w : world) :
  written cs w =
    mk_world (virtual_mouse w) (virtual_keyboard w) (joystick_handle w)
      (dev_heap w) (dev_registered w) (handle_heap w) (handle_registered w)
      (handle_open w) (trace w ++ cs).
Proof.
  revert w. induction cs as [| c cs IH]; intros w.
  - simpl. rewrite app_nil_r. symmetry. apply world_eta.
  - change (written (c :: cs) w) with (written cs (log c w)).
    rewrite IH. unfold log. cbn. now rewrite <- app_assoc.
Qed.

(** The paths through [joystick_connect]. *)
Lemma connect_path_cases (cfg : params) (ans : connect_answers)
    (dev : input_dev) :
  (joystick_id cfg <> -1 /\ product (id dev) <> joystick_id cfg)
  \/ (identity_ok cfg dev /\ Z.testbit (absbit dev) ABS_X = false)
  \/ (identity_ok cfg dev /\ Z.testbit (absbit dev) ABS_X = true /\
      Z.testbit (absbit dev) ABS_Y = false)
  \/ (identity_ok cfg dev /\ dual_axis dev /\
      (ans_kzalloc ans = NULL
       \/ (ans_kzalloc ans <> NULL /\ ans_register_handle ans <> 0)
       \/ (ans_kzalloc ans <> NULL /\ ans_register_handle ans = 0 /\
           ans_open_device ans <> 0)
       \/ (ans_kzalloc ans <> NULL /\ ans_register_handle ans = 0 /\
           ans_open_device ans = 0))).
Proof.
  unfold identity_ok, dual_axis.
  destruct (Z.eq_dec (joystick_id cfg) (-1));
    destruct (Z.eq_dec (product (id dev)) (joystick_id cfg));
    destruct (Z.testbit (absbit dev) ABS_X);
    destruct (Z.testbit (absbit dev) ABS_Y);
    destruct (N.eq_dec (ans_kzalloc ans) NULL);
    destruct (Z.eq_dec (ans_register_handle ans) 0);
    destruct (Z.eq_dec (ans_open_device ans) 0);
    tauto.
Qed.

(** Every run of [joystick_connect] either fails, leaving only calls in the
    trace, or takes the success path. *)
Lemma connect_outcome (cfg : params) (ans : connect_answers) (handler : ptr)
    (dev : input_dev) (w : world) :
  (exists (r : Z) (calls : list call),
      r <> 0 /\
      joystick_connect cfg ans handler dev w = (r, written calls w))
  \/
  (identity_ok cfg dev /\ dual_axis dev /\ ans_kzalloc ans <> NULL /\
   ans_register_handle ans = 0 /\ ans_open_device ans = 0).
Proof.
  destruct (Z.eq_dec (joystick_id cfg) (-1)) as [Hj | Hj];
    [assert (Hid : identity_ok cfg dev) by (left; exact Hj) |
     destruct (Z.eq_dec (product (id dev)) (joystick_id cfg)) as [Hp | Hp];
     [assert (Hid : identity_ok cfg dev) by (right; exact Hp) |
      left; exists (- ENODEV), [];
      split; [discriminate |
              exact (connect_identity_mismatch cfg ans handler dev w Hj Hp)]]].
  all: destruct (Z.testbit (absbit dev) ABS_X) eqn:HX;
    [| left; eexists; eexists; split;
       [| exact (connect_no_abs_x cfg ans handler dev w Hid HX)];
       discriminate].
  all: destruct (Z.testbit (absbit dev) ABS_Y) eqn:HY;
    [| left; eexists; eexists; split;
       [| exact (connect_no_abs_y cfg ans handler dev w Hid HX HY)];
       discriminate].
  all: assert (Hcap : dual_axis dev) by (split; assumption).
  all: destruct (N.eq_dec (ans_kzalloc ans) NULL) as [Hk | Hk];
    [left; eexists; eexists; split;
       [| exact (connect_no_memory cfg ans handler dev w Hid Hcap Hk)];
       discriminate |].
  all: destruct (Z.eq_dec (ans_register_handle ans) 0) as [Hr | Hr];
    [| left; eexists; eexists; split;
       [| exact (connect_register_fails cfg ans handler dev w Hid Hcap Hk Hr)];
       exact Hr].
  all: destruct (Z.eq_dec (ans_open_device ans) 0) as [Ho | Ho];
    [| left; eexists; eexists; split;
       [| exact (connect_open_fails cfg ans handler dev w Hid Hcap Hk Hr Ho)];
       exact Ho].
  all: right; repeat split; assumption.
Qed.

(** C3. A candidate whose capabilities lack ABS_X or ABS_Y is rejected with
    -ENODEV whatever [joystick_id] is, and no Binding record is allocated:
    the only calls made are bit tests, and the world is otherwise as it
    was. *)
Theorem connect_requires_dual_axis (cfg : params) (ans : connect_answers)
    (handler : ptr) (dev : input_dev) (w : world) :
  ~ dual_axis dev ->
  exists tests : list call,
    joystick_connect cfg ans handler dev w = (- ENODEV, written tests w) /\
    Forall (fun c => exists nr b, c = TestBit nr b) tests /\
    handle_heap (written tests w) = handle_heap w.
Proof.
  intros Hcap.
  assert (Hheap : forall cs, handle_heap (written cs w) = handle_heap w)
    by (intros cs; now rewrite written_eq).
  destruct (Z.eq_dec (joystick_id cfg) (-1)) as [Hj | Hj];
    [assert (Hid : identity_ok cfg dev) by (left; exact Hj) |
     destruct (Z.eq_dec (product (id dev)) (joystick_id cfg)) as [Hp | Hp];
     [assert (Hid : identity_ok cfg dev) by (right; exact Hp) |
      exists []; split;
      [exact (connect_identity_mismatch cfg ans handler dev w Hj Hp) |
       split; [constructor | apply Hheap]]]].
  all: destruct (Z.testbit (absbit dev) ABS_X) eqn:HX;
    [| exists [TestBit ABS_X false]; split;
       [exact (connect_no_abs_x cfg ans handler dev w Hid HX) |
        split; [repeat constructor; eauto | apply Hheap]]].
  all: destruct (Z.testbit (absbit dev) ABS_Y) eqn:HY;
    [exfalso; apply Hcap; split; assumption |
     exists [TestBit ABS_X true; TestBit ABS_Y false]; split;
       [exact (connect_no_abs_y cfg ans handler dev w Hid HX HY) |
        split; [repeat constructor; eauto | apply Hheap]]].
Qed.

Lemma connect_requires_dual_axis_witness :
  identity_ok default_params keyboard_dev /\
  ~ dual_axis keyboard_dev /\
  exists tests : list call,
    joystick_connect default_params (mk_connect_answers 7%N 0 0) 1%N
      keyboard_dev world_init = (- ENODEV, written tests world_init) /\
    Forall (fun c => exists nr b, c = TestBit nr b) tests /\
    handle_heap (written tests world_init) = handle_heap world_init /\
    tests = [TestBit ABS_X false].
Proof.
  assert (Hid : identity_ok default_params keyboard_dev)
    by (left; reflexivity).
  assert (H : ~ dual_axis keyboard_dev)
    by (unfold dual_axis; simpl; intros [E _]; discriminate).
  split; [exact Hid |]. split; [exact H |].
  destruct (connect_requires_dual_axis default_params
              (mk_connect_answers 7%N 0 0) 1%N keyboard_dev world_init H)
    as (tests & E & Hall & Hheap).
  exists tests. split; [exact E |]. split; [exact Hall |].
  split; [exact Hheap |].
  apply (f_equal (fun r => trace (snd r))) in E. cbn [snd] in E.
  rewrite trace_written in E.
  change (trace (snd (joystick_connect default_params
                        (mk_connect_answers 7%N 0 0) 1%N keyboard_dev
                        world_init)))
    with [TestBit ABS_X false] in E.
  symmetry. exact E.
Defined.

(** C4. When [joystick_id] is set (not -1) and the candidate's product differs
    from it, the candidate is rejected with -ENODEV whatever its
    capabilities, and nothing at all has been done: the identity check comes
    first, and the capability bits are tested only once it has passed (the
    first call of a connect that passes it is the test of ABS_X). *)
Theorem connect_identity_check_first (cfg : params) (ans : connect_answers)
    (handler : ptr) (dev : input_dev) (w : world) :
  (joystick_id cfg <> -1 -> product (id dev) <> joystick_id cfg ->
   joystick_connect cfg ans handler dev w = (- ENODEV, w))
  /\
  (identity_ok cfg dev ->
   exists rest : list call,
     trace (snd (joystick_connect cfg ans handler dev w)) =
       trace w ++ TestBit ABS_X (Z.testbit (absbit dev) ABS_X) :: rest).
Proof.
  split; [apply connect_identity_mismatch |].
  intros Hid.
  destruct (Z.testbit (absbit dev) ABS_X) eqn:HX;
    [| rewrite (connect_no_abs_x cfg ans handler dev w Hid HX);
       cbn [snd]; rewrite trace_written; eauto].
  destruct (Z.testbit (absbit dev) ABS_Y) eqn:HY;
    [| rewrite (connect_no_abs_y cfg ans handler dev w Hid HX HY);
       cbn [snd]; rewrite trace_written; eauto].
  assert (Hcap : dual_axis dev) by (split; assumption).
  destruct (N.eq_dec (ans_kzalloc ans) NULL) as [Hk | Hk];
    [rewrite (connect_no_memory cfg ans handler dev w Hid Hcap Hk);
     cbn [snd]; rewrite trace_written; eauto |].
  destruct (Z.eq_dec (ans_register_handle ans) 0) as [Hr | Hr];
    [| rewrite (connect_register_fails cfg ans handler dev w Hid Hcap Hk Hr);
       cbn [snd]; rewrite trace_written; eauto].
  destruct (Z.eq_dec (ans_open_device ans) 0) as [Ho | Ho];
    [| rewrite (connect_open_fails cfg ans handler dev w Hid Hcap Hk Hr Ho);
       cbn [snd]; rewrite trace_written; eauto].
  rewrite (connect_succeeds cfg ans handler dev w Hid Hcap Hk Hr Ho).
  cbn [snd trace]. eauto.
Qed.

Lemma connect_identity_check_first_witness :
  joystick_id (mk_params 77 5) <> -1 /\
  product (id gamepad) <> joystick_id (mk_params 77 5) /\
  dual_axis gamepad /\
  joystick_connect (mk_params 77 5) (mk_connect_answers 7%N 0 0) 1%N gamepad
    world_init = (- ENODEV, world_init) /\
  identity_ok (mk_params 654 5) gamepad /\
  exists rest : list call,
    trace (snd (joystick_connect (mk_params 654 5)
                  (mk_connect_answers 7%N 0 0) 1%N gamepad world_init)) =
      trace world_init ++ TestBit ABS_X (Z.testbit (absbit gamepad) ABS_X)
        :: rest.
Proof.
  assert (H1 : joystick_id (mk_params 77 5) <> -1) by (simpl; lia).
  assert (H2 : product (id gamepad) <> joystick_id (mk_params 77 5))
    by (simpl; lia).
  assert (H3 : identity_ok (mk_params 654 5) gamepad)
    by (right; reflexivity).
  split; [exact H1 |]. split; [exact H2 |].
  split; [split; reflexivity |].
  split; [exact (proj1 (connect_identity_check_first (mk_params 77 5)
                          (mk_connect_answers 7%N 0 0) 1%N gamepad world_init)
                   H1 H2) |].
  split; [exact H3 |].
  exact (proj2 (connect_identity_check_first (mk_params 654 5)
                  (mk_connect_answers 7%N 0 0) 1%N gamepad world_init) H3).
Defined.

(** C6. Failure paths of the bind sequence.  When registration fails the
    record is released and the error returned, with no further call; when
    opening fails after a successful registration the handle is unregistered,
    then the record released, then the error returned.  Every failing connect
    leaves [joystick_handle], the registered handles, the open handles and
    the allocated records exactly as they were. *)
Theorem connect_failure_unwinds (cfg : params) (ans : connect_answers)
    (handler : ptr) (dev : input_dev) (w : world) :
  (fst (joystick_connect cfg ans handler dev w) <> 0 ->
   let w' := snd (joystick_connect cfg ans handler dev w) in
   joystick_handle w' = joystick_handle w /\
   handle_registered w' = handle_registered w /\
   handle_open w' = handle_open w /\
   handle_heap w' = handle_heap w)
  /\
  (identity_ok cfg dev -> dual_axis dev ->
   ans_kzalloc ans <> NULL -> ans_register_handle ans <> 0 ->
   joystick_connect cfg ans handler dev w =
     (ans_register_handle ans,
      written [TestBit ABS_X true; TestBit ABS_Y true;
               Kzalloc (ans_kzalloc ans);
               InputRegisterHandle (ans_kzalloc ans) (ans_register_handle ans);
               Kfree (ans_kzalloc ans)] w))
  /\
  (identity_ok cfg dev -> dual_axis dev ->
   ans_kzalloc ans <> NULL -> ans_register_handle ans = 0 ->
   ans_open_device ans <> 0 ->
   joystick_connect cfg ans handler dev w =
     (ans_open_device ans,
      written [TestBit ABS_X true; TestBit ABS_Y true;
               Kzalloc (ans_kzalloc ans);
               InputRegisterHandle (ans_kzalloc ans) 0;
               InputOpenDevice (ans_kzalloc ans) (ans_open_device ans);
               InputUnregisterHandle (ans_kzalloc ans);
               Kfree (ans_kzalloc ans)] w)).
Proof.
  split; [| split;
            [apply connect_register_fails | apply connect_open_fails]].
  destruct (connect_outcome cfg ans handler dev w)
    as [(r & calls & Hr & E) | (Hid & Hcap & Hk & Hreg & Hopen)].
  - rewrite E. cbn [fst snd]. intros _. rewrite written_eq. cbn.
    repeat split.
  - rewrite (connect_succeeds cfg ans handler dev w Hid Hcap Hk Hreg Hopen).
    cbn [fst]. intros H. now contradiction H.
Qed.

Lemma connect_failure_unwinds_witness :
  let run (reg opn : Z) :=
    joystick_connect default_params (mk_connect_answers 7%N reg opn) 1%N
      gamepad world_init in
  (fst (run (-12) 0) <> 0 /\
   joystick_handle (snd (run (-12) 0)) = NULL /\
   handle_registered (snd (run (-12) 0)) = [])
  /\
  run (-12) 0 =
    (-12, written [TestBit ABS_X true; TestBit ABS_Y true; Kzalloc 7%N;
                   InputRegisterHandle 7%N (-12); Kfree 7%N] world_init)
  /\
  run 0 (-16) =
    (-16, written [TestBit ABS_X true; TestBit ABS_Y true; Kzalloc 7%N;
                   InputRegisterHandle 7%N 0; InputOpenDevice 7%N (-16);
                   InputUnregisterHandle 7%N; Kfree 7%N] world_init).
Proof.
  intros run.
  assert (Hid : identity_ok default_params gamepad) by (left; reflexivity).
  assert (Hcap : dual_axis gamepad) by (split; reflexivity).
  assert (Hk : 7%N <> NULL) by discriminate.
  assert (Hf : fst (run (-12) 0) <> 0) by (vm_compute; discriminate).
  pose proof (connect_failure_unwinds default_params
                (mk_connect_answers 7%N (-12) 0) 1%N gamepad world_init)
    as (U & R & _).
  pose proof (connect_failure_unwinds default_params
                (mk_connect_answers 7%N 0 (-16)) 1%N gamepad world_init)
    as (_ & _ & O).
  split; [split; [exact Hf | split; [exact (proj1 (U Hf)) |
                                     exact (proj1 (proj2 (U Hf)))]] |].
  split; [exact (R Hid Hcap Hk ltac:(discriminate)) |].
  exact (O Hid Hcap Hk eq_refl ltac:(discriminate)).
Defined.

(** C7, as the code has it.  The module tracks one device instance, the slot
    [joystick_handle], which after a successful connect holds the newest
    Binding.  A further acceptance while a Binding is live is not refused:
    the result of connect does not depend on the world it runs in, and every
    successful connect adds one Binding, allocated, registered and open, to
    those already there. *)
Theorem connect_adds_a_binding (cfg : params) (ans : connect_answers)
    (handler : ptr) (dev : input_dev) (w : world) :
  (forall w0 : world,
      fst (joystick_connect cfg ans handler dev w) =
      fst (joystick_connect cfg ans handler dev w0))
  /\
  (fst (joystick_connect cfg ans handler dev w) = 0 ->
   let w' := snd (joystick_connect cfg ans handler dev w) in
   joystick_handle w' = ans_kzalloc ans /\
   handle_heap w' =
     (ans_kzalloc ans, mk_input_handle (Some dev) handler "joystick_drawer")
       :: handle_heap w /\
   handle_registered w' = ans_kzalloc ans :: handle_registered w /\
   handle_open w' = ans_kzalloc ans :: handle_open w).
Proof.
  split.
  - intros w0.
    destruct (connect_path_cases cfg ans dev)
      as [[Hj Hp] | [[Hid HX] | [(Hid & HX & HY) | (Hid & Hcap & Hans)]]].
    + now rewrite !(connect_identity_mismatch cfg ans handler dev _ Hj Hp).
    + now rewrite !(connect_no_abs_x cfg ans handler dev _ Hid HX).
    + now rewrite !(connect_no_abs_y cfg ans handler dev _ Hid HX HY).
    + destruct Hans as [Hk | [[Hk Hr] | [(Hk & Hr & Ho) | (Hk & Hr & Ho)]]].
      * now rewrite !(connect_no_memory cfg ans handler dev _ Hid Hcap Hk).
      * now rewrite !(connect_register_fails cfg ans handler dev _ Hid Hcap
                        Hk Hr).
      * now rewrite !(connect_open_fails cfg ans handler dev _ Hid Hcap Hk Hr
                        Ho).
      * now rewrite !(connect_succeeds cfg ans handler dev _ Hid Hcap Hk Hr
                        Ho).
  - destruct (connect_outcome cfg ans handler dev w)
      as [(r & calls & Hr & E) | (Hid & Hcap & Hk & Hreg & Hopen)].
    + rewrite E. cbn [fst]. intros H. now contradiction Hr.
    + rewrite (connect_succeeds cfg ans handler dev w Hid Hcap Hk Hreg Hopen).
      intros _. cbn. repeat split.
Qed.

Lemma connect_adds_a_binding_witness :
  let w1 :=
    snd (joystick_connect default_params (mk_connect_answers 7%N 0 0) 1%N
           gamepad world_init) in
  let second :=
    joystick_connect default_params (mk_connect_answers 8%N 0 0) 1%N
      second_gamepad w1 in
  fst second = 0 /\
  joystick_handle (snd second) = 8%N /\
  handle_registered (snd second) = 8%N :: handle_registered w1 /\
  handle_open (snd second) = 8%N :: handle_open w1.
Proof.
  intros w1 second.
  assert (H : fst second = 0) by reflexivity.
  pose proof (proj2 (connect_adds_a_binding default_params
                       (mk_connect_answers 8%N 0 0) 1%N second_gamepad w1) H)
    as (Hj & _ & Hr & Ho).
  split; [exact H |]. split; [exact Hj |]. split; [exact Hr | exact Ho].
Defined.

(** Two joysticks offered one after the other are both bound: while the
    first Binding is live, the second connect succeeds and there are two. *)
Lemma second_connect_makes_two_bindings :
  let reqs :=
    [(mk_connect_answers 7%N 0 0, gamepad);
     (mk_connect_answers 8%N 0 0, second_gamepad)] in
  handle_open (run_connects default_params 1%N reqs world_init) = [8%N; 7%N]
  /\ handle_registered (run_connects default_params 1%N reqs world_init)
     = [8%N; 7%N]
  /\ ~ at_most_one_binding (run_connects default_params 1%N reqs world_init).
Proof.
  intros reqs. split; [reflexivity |]. split; [reflexivity |].
  unfold at_most_one_binding. intros H. vm_compute in H. lia.
Qed.

(** [joystick_disconnect] on a handle whose record and device can be read:
    the diagnostic, then close, unregister, release; no static is written. *)
Lemma disconnect_bound (handle : ptr) (r : input_handle) (dev : input_dev)
    (w : world) :
  heap_lookup handle (handle_heap w) = Some r -> h_dev r = Some dev ->
  joystick_disconnect handle w =
    Some (tt,
          mk_world (virtual_mouse w) (virtual_keyboard w) (joystick_handle w)
            (dev_heap w) (dev_registered w)
            (heap_free handle (handle_heap w))
            (remove_first handle (handle_registered w))
            (remove_first handle (handle_open w))
            (trace w ++
             [Printk KERN_INFO
                ("joystick_drawer: Disconnected from " ++ name dev ++ nl);
              InputCloseDevice handle; InputUnregisterHandle handle;
              Kfree handle])).
Proof.
  intros Hl Hd. unfold joystick_disconnect. rewrite Hl, Hd. destruct w.
  run_monad. rewrite <- ?app_assoc. reflexivity.
Qed.

(** C8, at a bound device.  After a successful connect, the disconnect
    notification logs the diagnostic, closes the Binding, unregisters it and
    releases its record, and a new candidate is accepted afterwards; but
    [joystick_handle] is not cleared: it still holds the address of the
    released record. *)
Theorem disconnect_leaves_stale_handle :
  let w1 :=
    snd (joystick_connect default_params (mk_connect_answers 7%N 0 0) 1%N
           gamepad world_init) in
  exists w2 : world,
    joystick_disconnect 7%N w1 = Some (tt, w2) /\
    trace w2 =
      trace w1 ++
      [Printk KERN_INFO ("joystick_drawer: Disconnected from Gamepad" ++ nl);
       InputCloseDevice 7%N; InputUnregisterHandle 7%N; Kfree 7%N] /\
    handle_open w2 = [] /\ handle_registered w2 = [] /\ handle_heap w2 = [] /\
    fst (joystick_connect default_params (mk_connect_answers 8%N 0 0) 1%N
           second_gamepad w2) = 0 /\
    joystick_handle w2 = 7%N /\
    joystick_handle w2 <> NULL /\
    heap_lookup (joystick_handle w2) (handle_heap w2) = None.
Proof.
  intros w1. eexists. split; [reflexivity |].
  repeat split. discriminate.
Qed.

(** ** Frame of joystick_event *)

Lemma device_writes_report_sync (d d' : ptr) (report : call) (w : world) :
  writes_to d' report = N.eqb d d' ->
  device_writes d' (trace (written [report; InputSync d] w)) =
    device_writes d' (trace w) ++
    (if N.eqb d d' then [report; InputSync d] else []).
Proof.
  intros H. rewrite trace_written, device_writes_app. f_equal.
  unfold device_writes. cbn [filter writes_to]. rewrite H.
  now destruct (N.eqb d d').
Qed.

(** C10. One input event writes to at most one of the two output devices:
    there is a device [d] among them such that the calls of the translator
    are either none, or exactly one report to [d] followed by one flush of
    [d]; the writes seen by any other device are those it had before, and
    nothing else in the world changes. *)
Theorem event_writes_one_device (cfg : params) (handle : ptr)
    (type code value : Z) (w : world) :
  exists (d : ptr) (calls : list call),
    (d = virtual_mouse w \/ d = virtual_keyboard w) /\
    joystick_event cfg handle type code value w = (tt, written calls w) /\
    (calls = [] \/
     exists c v : Z,
       calls = [InputReportRel d c v; InputSync d] \/
       calls = [InputReportKey d c v; InputSync d]) /\
    (forall d' : ptr,
        device_writes d' (trace (written calls w)) =
          device_writes d' (trace w) ++ (if N.eqb d d' then calls else [])).
Proof.
  assert (Hnone : forall d' d : ptr,
             device_writes d' (trace (written [] w)) =
               device_writes d' (trace w) ++ (if N.eqb d d' then [] else [])).
  { intros d' d. cbn. destruct (N.eqb d d'); now rewrite app_nil_r. }
  destruct (Z.eq_dec type EV_ABS) as [-> | HA].
  - destruct (Z.eq_dec code ABS_X) as [-> | HX];
      [| destruct (Z.eq_dec code ABS_Y) as [-> | HY]].
    + exists (virtual_mouse w). eexists. split; [now left |].
      split; [apply (event_abs cfg handle value w ABS_X REL_X); simpl; auto |].
      split; [right; eauto |].
      intros d'. now apply device_writes_report_sync.
    + exists (virtual_mouse w). eexists. split; [now left |].
      split; [apply (event_abs cfg handle value w ABS_Y REL_Y); simpl; auto |].
      split; [right; eauto |].
      intros d'. now apply device_writes_report_sync.
    + exists (virtual_mouse w), []. split; [now left |].
      split; [now apply event_abs_other |]. split; [now left |].
      intros d'. apply Hnone.
  - destruct (Z.eq_dec type EV_KEY) as [-> | HK].
    + destruct (Z.eq_dec code BTN_TL) as [-> | H1].
      { exists (virtual_mouse w). eexists. split; [now left |].
        split; [apply event_key_mouse |]. split; [right; eauto |].
        intros d'. now apply device_writes_report_sync. }
      assert (Hkbd : forall key,
                 In (code, key)
                    [(BTN_B, KEY_B); (BTN_X, KEY_E); (BTN_Y, KEY_RIGHTBRACE);
                     (BTN_A, KEY_LEFTBRACE)] ->
                 exists (d : ptr) (calls : list call),
                   (d = virtual_mouse w \/ d = virtual_keyboard w) /\
                   joystick_event cfg handle EV_KEY code value w =
                     (tt, written calls w) /\
                   (calls = [] \/
                    exists c v : Z,
                      calls = [InputReportRel d c v; InputSync d] \/
                      calls = [InputReportKey d c v; InputSync d]) /\
                   (forall d' : ptr,
                       device_writes d' (trace (written calls w)) =
                         device_writes d' (trace w) ++
                         (if N.eqb d d' then calls else []))).
      { intros key Hin. exists (virtual_keyboard w). eexists.
        split; [now right |].
        split; [apply (event_key_keyboard cfg handle value w code key Hin) |].
        split; [right; eauto |].
        intros d'. now apply device_writes_report_sync. }
      destruct (Z.eq_dec code BTN_B) as [-> | H2];
        [apply (Hkbd KEY_B); simpl; auto |].
      destruct (Z.eq_dec code BTN_X) as [-> | H3];
        [apply (Hkbd KEY_E); simpl; auto |].
      destruct (Z.eq_dec code BTN_Y) as [-> | H4];
        [apply (Hkbd KEY_RIGHTBRACE); simpl; auto |].
      destruct (Z.eq_dec code BTN_A) as [-> | H5];
        [apply (Hkbd KEY_LEFTBRACE); simpl; auto |].
      exists (virtual_mouse w), []. split; [now left |].
      split; [apply event_key_other; simpl; intuition congruence |].
      split; [now left |]. intros d'. apply Hnone.
    + exists (virtual_mouse w), []. split; [now left |].
      split; [now apply event_other_type |]. split; [now left |].
      intros d'. apply Hnone.
Qed.

(** ** create_virtual_devices, path by path *)

Section CreatePaths.
Variables (ans : create_answers) (w : world).

Lemma create_no_mouse_memory :
  ans_alloc_mouse ans = NULL ->
  create_virtual_devices ans w =
    (- ENOMEM,
     set_virtual_mouse NULL
       (written
          [InputAllocateDevice NULL;
           Printk KERN_ERR
             ("joystick_drawer: Not enough memory for virtual mouse" ++ nl)]
          w)).
Proof.
  intros Hm. unfold create_virtual_devices. destruct w. rewrite Hm.
  reflexivity.
Qed.

Lemma create_mouse_register_fails :
  ans_alloc_mouse ans <> NULL -> ans_register_mouse ans <> 0 ->
  create_virtual_devices ans w =
    (ans_register_mouse ans,
     set_virtual_mouse (ans_alloc_mouse ans)
       (written
          [InputAllocateDevice (ans_alloc_mouse ans);
           InputRegisterDevice (ans_alloc_mouse ans) (ans_register_mouse ans);
           Printk KERN_ERR
             ("joystick_drawer: Failed to register virtual mouse" ++ nl);
           InputFreeDevice (ans_alloc_mouse ans)]
          w)).
Proof.
  intros Hm Hr. apply N.eqb_neq in Hm. apply Z.eqb_neq in Hr.
  unfold create_virtual_devices. destruct w.
  repeat (run_monad; rewrite ?Hm, ?Hr, ?N.eqb_refl; cbn [negb]).
  rewrite <- ?app_assoc. reflexivity.
Qed.

Lemma create_no_keyboard_memory :
  ans_alloc_mouse ans <> NULL -> ans_register_mouse ans = 0 ->
  ans_alloc_keyboard ans = NULL ->
  create_virtual_devices ans w =
    (- ENOMEM,
     set_virtual_keyboard NULL
       (set_virtual_mouse NULL
          (written
             [InputAllocateDevice (ans_alloc_mouse ans);
              InputRegisterDevice (ans_alloc_mouse ans) 0;
              InputAllocateDevice NULL;
              Printk KERN_ERR
                ("joystick_drawer: Not enough memory for virtual keyboard"
                   ++ nl);
              InputUnregisterDevice (ans_alloc_mouse ans)]
             w))).
Proof.
  intros Hm Hr Hk. apply N.eqb_neq in Hm.
  unfold create_virtual_devices. destruct w.
  repeat (run_monad; rewrite ?Hm, ?Hr, ?Hk, ?N.eqb_refl;
          cbn [negb Z.eqb N.eqb NULL]).
  rewrite <- ?app_assoc. reflexivity.
Qed.

Lemma create_keyboard_register_fails :
  ans_alloc_mouse ans <> NULL -> ans_register_mouse ans = 0 ->
  ans_alloc_keyboard ans <> NULL -> ans_register_keyboard ans <> 0 ->
  create_virtual_devices ans w =
    (ans_register_keyboard ans,
     set_virtual_keyboard (ans_alloc_keyboard ans)
       (set_virtual_mouse NULL
          (written
             [InputAllocateDevice (ans_alloc_mouse ans);
              InputRegisterDevice (ans_alloc_mouse ans) 0;
              InputAllocateDevice (ans_alloc_keyboard ans);
              InputRegisterDevice (ans_alloc_keyboard ans)
                (ans_register_keyboard ans);
              Printk KERN_ERR
                ("joystick_drawer: Failed to register virtual keyboard"
                   ++ nl);
              InputFreeDevice (ans_alloc_keyboard ans);
              InputUnregisterDevice (ans_alloc_mouse ans)]
             w))).
Proof.
  intros Hm Hr Hk Hrk.
  apply N.eqb_neq in Hm. apply N.eqb_neq in Hk. apply Z.eqb_neq in Hrk.
  unfold create_virtual_devices. destruct w.
  repeat (run_monad; rewrite ?Hm, ?Hr, ?Hk, ?Hrk, ?N.eqb_refl;
          cbn [negb Z.eqb]).
  rewrite <- ?app_assoc. reflexivity.
Qed.

Lemma create_succeeds :
  ans_alloc_mouse ans <> NULL -> ans_register_mouse ans = 0 ->
  ans_alloc_keyboard ans <> NULL -> ans_register_keyboard ans = 0 ->
  create_virtual_devices ans w =
    (0,
     mk_world (ans_alloc_mouse ans) (ans_alloc_keyboard ans)
       (joystick_handle w)
       ((ans_alloc_keyboard ans, virtual_keyboard_decl)
          :: (ans_alloc_mouse ans, virtual_mouse_decl) :: dev_heap w)
       (ans_alloc_keyboard ans :: ans_alloc_mouse ans :: dev_registered w)
       (handle_heap w) (handle_registered w) (handle_open w)
       (trace w ++
        [InputAllocateDevice (ans_alloc_mouse ans);
         InputRegisterDevice (ans_alloc_mouse ans) 0;
         InputAllocateDevice (ans_alloc_keyboard ans);
         InputRegisterDevice (ans_alloc_keyboard ans) 0])).
Proof.
  intros Hm Hr Hk Hrk.
  apply N.eqb_neq in Hm. apply N.eqb_neq in Hk.
  unfold create_virtual_devices. destruct w.
  repeat (run_monad; rewrite ?Hm, ?Hr, ?Hk, ?Hrk, ?N.eqb_refl;
          cbn [negb Z.eqb]).
  rewrite <- ?app_assoc. reflexivity.
Qed.
End CreatePaths.

(** C5. The two output devices are created as a pair.  Either
    [create_virtual_devices] returns 0 and has registered both the pointer
    device and the key-emitter device, or it returns a failure code and has
    undone what it had done: the devices registered with the host, and the
    device objects allocated, are exactly those there were before the call,
    so that a module loaded into a host with none of its devices leaves
    none. *)
Theorem create_virtual_devices_atomic :
  (forall (ans : create_answers) (w : world),
      let r := fst (create_virtual_devices ans w) in
      let w' := snd (create_virtual_devices ans w) in
      (r = 0 /\
       virtual_mouse w' <> NULL /\ virtual_keyboard w' <> NULL /\
       dev_registered w' =
         virtual_keyboard w' :: virtual_mouse w' :: dev_registered w /\
       dev_heap w' =
         (virtual_keyboard w', virtual_keyboard_decl)
           :: (virtual_mouse w', virtual_mouse_decl) :: dev_heap w)
      \/
      (r <> 0 /\
       dev_registered w' = dev_registered w /\
       dev_heap w' = dev_heap w))
  /\
  (forall ans : create_answers,
      let r := fst (create_virtual_devices ans world_init) in
      let w' := snd (create_virtual_devices ans world_init) in
      (r = 0 /\
       virtual_mouse w' <> NULL /\ virtual_keyboard w' <> NULL /\
       dev_registered w' = [virtual_keyboard w'; virtual_mouse w'])
      \/
      (r <> 0 /\ dev_registered w' = [] /\ dev_heap w' = [])).
Proof.
  assert (G : forall (ans : create_answers) (w : world),
             let r := fst (create_virtual_devices ans w) in
             let w' := snd (create_virtual_devices ans w) in
             (r = 0 /\
              virtual_mouse w' <> NULL /\ virtual_keyboard w' <> NULL /\
              dev_registered w' =
                virtual_keyboard w' :: virtual_mouse w' :: dev_registered w /\
              dev_heap w' =
                (virtual_keyboard w', virtual_keyboard_decl)
                  :: (virtual_mouse w', virtual_mouse_decl) :: dev_heap w)
             \/
             (r <> 0 /\
              dev_registered w' = dev_registered w /\
              dev_heap w' = dev_heap w)).
  { intros ans w. cbv zeta.
    destruct (N.eq_dec (ans_alloc_mouse ans) NULL) as [Hm | Hm].
    { rewrite (create_no_mouse_memory ans w Hm). right.
      rewrite written_eq. cbn. split; [discriminate | split; reflexivity]. }
    destruct (Z.eq_dec (ans_register_mouse ans) 0) as [Hr | Hr].
    2: { rewrite (create_mouse_register_fails ans w Hm Hr). right.
         rewrite written_eq. cbn. split; [exact Hr | split; reflexivity]. }
    destruct (N.eq_dec (ans_alloc_keyboard ans) NULL) as [Hk | Hk].
    { rewrite (create_no_keyboard_memory ans w Hm Hr Hk). right.
      rewrite written_eq. cbn. split; [discriminate | split; reflexivity]. }
    destruct (Z.eq_dec (ans_register_keyboard ans) 0) as [Hrk | Hrk].
    2: { rewrite (create_keyboard_register_fails ans w Hm Hr Hk Hrk). right.
         rewrite written_eq. cbn. split; [exact Hrk | split; reflexivity]. }
    rewrite (create_succeeds ans w Hm Hr Hk Hrk). left. cbn.
    repeat split; assumption. }
  split; [exact G |].
  intros ans. cbv zeta.
  destruct (G ans world_init) as [(H0 & Hm & Hk & Hreg & _) | (H0 & Hreg & Hh)].
  - left. repeat split; assumption.
  - right. repeat split; assumption.
Qed.

(** * Further properties *)

(** ** The translator on streams of events *)

Lemma written_app (cs1 cs2 : list call) (w : world) :
  written (cs1 ++ cs2) w = written cs2 (written cs1 w).
Proof. unfold written. apply fold_left_app. Qed.

Lemma written_inj (cs1 cs2 : list call) (w : world) :
  written cs1 w = written cs2 w -> cs1 = cs2.
Proof.
  intros H. apply (f_equal trace) in H. rewrite !trace_written in H.
  exact (app_inv_head _ _ _ H).
Qed.

(** The calls of one event are fixed by the event, the parameters and the
    two output devices, and have one of four shapes. *)
Lemma event_shape (cfg : params) (handle : ptr) (type code value : Z) :
  exists f : ptr -> ptr -> list call,
    (forall w : world,
        joystick_event cfg handle type code value w =
          (tt, written (f (virtual_mouse w) (virtual_keyboard w)) w)) /\
    ((forall vm vk, f vm vk = [])
     \/ (exists rel m, In rel [REL_X; REL_Y] /\
           forall vm vk, f vm vk = [InputReportRel vm rel m; InputSync vm])
     \/ (forall vm vk,
           f vm vk = [InputReportKey vm BTN_LEFT value; InputSync vm])
     \/ (exists key,
           In key [KEY_B; KEY_E; KEY_RIGHTBRACE; KEY_LEFTBRACE] /\
           forall vm vk,
             f vm vk = [InputReportKey vk key value; InputSync vk])).
Proof.
  destruct (Z.eq_dec type EV_ABS) as [-> | HA].
  - destruct (Z.eq_dec code ABS_X) as [-> | HX];
      [| destruct (Z.eq_dec code ABS_Y) as [-> | HY]].
    + eexists (fun vm vk => [InputReportRel vm REL_X _; InputSync vm]).
      split; [intros w; apply (event_abs cfg handle value w ABS_X REL_X);
              simpl; auto |].
      right; left. eexists; eexists. split; [| reflexivity]. simpl; auto.
    + eexists (fun vm vk => [InputReportRel vm REL_Y _; InputSync vm]).
      split; [intros w; apply (event_abs cfg handle value w ABS_Y REL_Y);
              simpl; auto |].
      right; left. eexists; eexists. split; [| reflexivity]. simpl; auto.
    + exists (fun _ _ => []).
      split; [intros w; now apply event_abs_other | now left].
  - destruct (Z.eq_dec type EV_KEY) as [-> | HK].
    + destruct (Z.eq_dec code BTN_TL) as [-> | H1].
      { eexists (fun vm vk => [InputReportKey vm BTN_LEFT value; InputSync vm]).
        split; [intros w; apply event_key_mouse | right; right; now left]. }
      assert (Hkbd : forall key,
                 In key [KEY_B; KEY_E; KEY_RIGHTBRACE; KEY_LEFTBRACE] ->
                 In (code, key)
                    [(BTN_B, KEY_B); (BTN_X, KEY_E); (BTN_Y, KEY_RIGHTBRACE);
                     (BTN_A, KEY_LEFTBRACE)] ->
                 exists f : ptr -> ptr -> list call,
                   (forall w : world,
                       joystick_event cfg handle EV_KEY code value w =
                         (tt, written
                                (f (virtual_mouse w) (virtual_keyboard w)) w))
                   /\ ((forall vm vk, f vm vk = [])
                       \/ (exists rel m, In rel [REL_X; REL_Y] /\
                             forall vm vk,
                               f vm vk =
                                 [InputReportRel vm rel m; InputSync vm])
                       \/ (forall vm vk,
                             f vm vk =
                               [InputReportKey vm BTN_LEFT value;
                                InputSync vm])
                       \/ (exists key,
                             In key
                                [KEY_B; KEY_E; KEY_RIGHTBRACE; KEY_LEFTBRACE]
                             /\ forall vm vk,
                                 f vm vk =
                                   [InputReportKey vk key value;
                                    InputSync vk]))).
      { intros key Hkey Hin.
        exists (fun vm vk => [InputReportKey vk key value; InputSync vk]).
        split; [intros w;
                apply (event_key_keyboard cfg handle value w code key Hin) |].
        right; right; right. exists key. split; [exact Hkey | reflexivity]. }
      destruct (Z.eq_dec code BTN_B) as [-> | H2];
        [apply (Hkbd KEY_B); simpl; auto |].
      destruct (Z.eq_dec code BTN_X) as [-> | H3];
        [apply (Hkbd KEY_E); simpl; auto |].
      destruct (Z.eq_dec code BTN_Y) as [-> | H4];
        [apply (Hkbd KEY_RIGHTBRACE); simpl; auto |].
      destruct (Z.eq_dec code BTN_A) as [-> | H5];
        [apply (Hkbd KEY_LEFTBRACE); simpl; auto |].
      exists (fun _ _ => []).
      split; [intros w; apply event_key_other; simpl; intuition congruence |
              now left].
    + exists (fun _ _ => []).
      split; [intros w; now apply event_other_type | now left].
Qed.

Lemma joystick_event_local (cfg : params) (handle : ptr) (e : event)
    (w : world) :
  joystick_event cfg handle (ev_type e) (ev_code e) (ev_value e) w =
    (tt, written
           (event_calls cfg (virtual_mouse w) (virtual_keyboard w) e) w).
Proof.
  destruct (event_shape cfg handle (ev_type e) (ev_code e) (ev_value e))
    as (f & Hf & _).
  destruct (event_shape cfg NULL (ev_type e) (ev_code e) (ev_value e))
    as (g & Hg & _).
  unfold event_calls. rewrite Hg. cbn [snd]. rewrite trace_written.
  cbn [trace virtual_mouse virtual_keyboard app].
  rewrite Hf. f_equal. f_equal.
  (* the calls do not depend on the handle: compare both on one world *)
  pose proof (Hf (mk_world (virtual_mouse w) (virtual_keyboard w) NULL
                    [] [] [] [] [] [])) as E1.
  pose proof (Hg (mk_world (virtual_mouse w) (virtual_keyboard w) NULL
                    [] [] [] [] [] [])) as E2.
  cbn [virtual_mouse virtual_keyboard] in E1, E2.
  assert (E : joystick_event cfg handle (ev_type e) (ev_code e) (ev_value e)
              = joystick_event cfg NULL (ev_type e) (ev_code e) (ev_value e))
    by reflexivity.
  rewrite E, E2 in E1. inversion E1 as [E3].
  symmetry. exact (written_inj _ _ _ E3).
Qed.

(** X1. Events are translated in arrival order and independently of each
    other: after a stream of events the world is the one before, with the
    calls of each event appended in order of arrival, and the calls of an
    event are those it produces on its own. *)
Theorem events_in_arrival_order (cfg : params) (handle : ptr)
    (evs : list event) (w : world) :
  run_events cfg handle evs w =
    written
      (flat_map (event_calls cfg (virtual_mouse w) (virtual_keyboard w)) evs)
      w.
Proof.
  revert w. induction evs as [| e evs IH]; intros w; [reflexivity |].
  cbn [run_events flat_map]. rewrite joystick_event_local. cbn [snd].
  rewrite IH, written_app.
  now rewrite (written_eq (event_calls _ _ _ e) w).
Qed.

(** ** The scaling of axis values *)

(** X2. Dead band.  When the product fits an [int], an axis event reports
    motion 0 exactly when [|(v - 128) * sensitivity| < 32]; the zero motion is
    still reported and flushed. *)
Theorem axis_dead_band (cfg : params) (handle : ptr) (code rel v : Z)
    (w : world) :
  In (code, rel) axes ->
  in_int ((v - 128) * sensitivity cfg) ->
  (joystick_event cfg handle EV_ABS code v w =
     (tt, written [InputReportRel (virtual_mouse w) rel 0;
                   InputSync (virtual_mouse w)] w)
   <-> -32 < (v - 128) * sensitivity cfg < 32).
Proof.
  intros Hax Hfit.
  rewrite (event_abs cfg handle v w code rel Hax).
  rewrite scaled_value_wrapped. change center with 128.
  rewrite (to_int_id _ Hfit).
  pose proof (Z.quot_small_iff ((v - 128) * sensitivity cfg) 32
                ltac:(discriminate)) as Hq.
  split.
  - intros E. apply (f_equal snd) in E. cbn [snd] in E.
    apply written_inj in E. inversion E as [Hm]. apply Hq in Hm. lia.
  - intros Hb. assert (Hm : ((v - 128) * sensitivity cfg) ÷ 32 = 0)
      by (apply Hq; lia).
    now rewrite Hm.
Qed.

Lemma axis_dead_band_witness :
  In (ABS_X, REL_X) axes /\
  in_int ((134 - 128) * sensitivity default_params) /\
  (joystick_event default_params 7%N EV_ABS ABS_X 134 world_init =
     (tt, written [InputReportRel NULL REL_X 0; InputSync NULL] world_init)
   <-> -32 < (134 - 128) * sensitivity default_params < 32).
Proof.
  assert (Hax : In (ABS_X, REL_X) axes) by (simpl; auto).
  assert (Hfit : in_int ((134 - 128) * sensitivity default_params))
    by (unfold in_int, int_min, int_max; simpl; lia).
  split; [exact Hax |]. split; [exact Hfit |].
  exact (axis_dead_band default_params 7%N ABS_X REL_X 134 world_init Hax
           Hfit).
Defined.

(** X3. The response is symmetric about the centre: deflections [+ d] and
    [- d] from 128 report opposite motions (the division truncates toward
    zero on both sides), unless the product, as an [int], is the one [int]
    without a negation. *)
Theorem axis_symmetric_about_center (cfg : params) (handle : ptr)
    (code rel d : Z) (w : world) :
  In (code, rel) axes ->
  to_int (d * sensitivity cfg) <> int_min ->
  exists m : Z,
    joystick_event cfg handle EV_ABS code (128 + d) w =
      (tt, written [InputReportRel (virtual_mouse w) rel m;
                    InputSync (virtual_mouse w)] w) /\
    joystick_event cfg handle EV_ABS code (128 - d) w =
      (tt, written [InputReportRel (virtual_mouse w) rel (- m);
                    InputSync (virtual_mouse w)] w).
Proof.
  intros Hax Hd.
  rewrite !(event_abs cfg handle _ w code rel Hax).
  rewrite !scaled_value_wrapped. change center with 128.
  replace (128 + d - 128) with d by ring.
  replace ((128 - d - 128) * sensitivity cfg) with (- (d * sensitivity cfg))
    by ring.
  eexists. split; [reflexivity |].
  rewrite (to_int_opp _ Hd), Z.quot_opp_l by lia. reflexivity.
Qed.

Lemma axis_symmetric_about_center_witness :
  In (ABS_Y, REL_Y) axes /\
  to_int (15 * sensitivity default_params) <> int_min /\
  exists m : Z,
    joystick_event default_params 7%N EV_ABS ABS_Y (128 + 15) world_init =
      (tt, written [InputReportRel NULL REL_Y m; InputSync NULL] world_init)
    /\
    joystick_event default_params 7%N EV_ABS ABS_Y (128 - 15) world_init =
      (tt, written [InputReportRel NULL REL_Y (- m); InputSync NULL]
             world_init).
Proof.
  assert (Hax : In (ABS_Y, REL_Y) axes) by (simpl; auto).
  assert (Hd : to_int (15 * sensitivity default_params) <> int_min)
    by (vm_compute; discriminate).
  split; [exact Hax |]. split; [exact Hd |].
  exact (axis_symmetric_about_center default_params 7%N ABS_Y REL_Y 15
           world_init Hax Hd).
Defined.

(** X4. With a sensitivity that is not negative the reported motion grows
    with the raw value: [v1 <= v2] gives motions [m1 <= m2], as long as both
    products fit an [int]. *)
Theorem axis_motion_monotone (cfg : params) (handle : ptr)
    (code rel v1 v2 : Z) (w : world) :
  In (code, rel) axes ->
  0 <= sensitivity cfg ->
  v1 <= v2 ->
  in_int ((v1 - 128) * sensitivity cfg) ->
  in_int ((v2 - 128) * sensitivity cfg) ->
  exists m1 m2 : Z,
    joystick_event cfg handle EV_ABS code v1 w =
      (tt, written [InputReportRel (virtual_mouse w) rel m1;
                    InputSync (virtual_mouse w)] w) /\
    joystick_event cfg handle EV_ABS code v2 w =
      (tt, written [InputReportRel (virtual_mouse w) rel m2;
                    InputSync (virtual_mouse w)] w) /\
    m1 <= m2.
Proof.
  intros Hax Hs Hv H1 H2.
  rewrite !(event_abs cfg handle _ w code rel Hax).
  rewrite !scaled_value_wrapped. change center with 128.
  rewrite (to_int_id _ H1), (to_int_id _ H2).
  eexists; eexists. split; [reflexivity |]. split; [reflexivity |].
  apply Z.quot_le_mono; [lia |].
  apply Z.mul_le_mono_nonneg_r; lia.
Qed.

Lemma axis_motion_monotone_witness :
  In (ABS_X, REL_X) axes /\
  0 <= sensitivity default_params /\ 96 <= 160 /\
  in_int ((96 - 128) * sensitivity default_params) /\
  in_int ((160 - 128) * sensitivity default_params) /\
  exists m1 m2 : Z,
    joystick_event default_params 7%N EV_ABS ABS_X 96 world_init =
      (tt, written [InputReportRel NULL REL_X m1; InputSync NULL] world_init)
    /\
    joystick_event default_params 7%N EV_ABS ABS_X 160 world_init =
      (tt, written [InputReportRel NULL REL_X m2; InputSync NULL] world_init)
    /\ m1 <= m2.
Proof.
  assert (Hax : In (ABS_X, REL_X) axes) by (simpl; auto).
  assert (Hs : 0 <= sensitivity default_params) by (simpl; lia).
  assert (Hv : 96 <= 160) by lia.
  assert (H1 : in_int ((96 - 128) * sensitivity default_params))
    by (unfold in_int, int_min, int_max; simpl; lia).
  assert (H2 : in_int ((160 - 128) * sensitivity default_params))
    by (unfold in_int, int_min, int_max; simpl; lia).
  repeat (split; [assumption |]).
  exact (axis_motion_monotone default_params 7%N ABS_X REL_X 96 160
           world_init Hax Hs Hv H1 H2).
Defined.

(** X5. In the documented range: for an 8-bit axis value (0..255) and a
    sensitivity from 1 to 10 nothing overflows, the reported motion is the
    quotient of the integers, and it lies between -40 and 39. *)
Theorem axis_motion_documented_range (cfg : params) (handle : ptr)
    (code rel v : Z) (w : world) :
  In (code, rel) axes ->
  0 <= v <= 255 ->
  1 <= sensitivity cfg <= 10 ->
  exists m : Z,
    joystick_event cfg handle EV_ABS code v w =
      (tt, written [InputReportRel (virtual_mouse w) rel m;
                    InputSync (virtual_mouse w)] w) /\
    m = ((v - 128) * sensitivity cfg) ÷ 32 /\
    -40 <= m <= 39.
Proof.
  intros Hax Hv Hs.
  assert (Hp : -1280 <= (v - 128) * sensitivity cfg <= 1270) by nia.
  rewrite (event_abs cfg handle v w code rel Hax).
  rewrite scaled_value_wrapped. change center with 128.
  rewrite to_int_id by (unfold in_int, int_min, int_max; lia).
  eexists. split; [reflexivity |]. split; [reflexivity |].
  split.
  - change (-40) with (-1280 ÷ 32). apply Z.quot_le_mono; lia.
  - change 39 with (1270 ÷ 32). apply Z.quot_le_mono; lia.
Qed.

Lemma axis_motion_documented_range_witness :
  In (ABS_X, REL_X) axes /\ 0 <= 255 <= 255 /\
  1 <= sensitivity (mk_params (-1) 10) <= 10 /\
  exists m : Z,
    joystick_event (mk_params (-1) 10) 7%N EV_ABS ABS_X 255 world_init =
      (tt, written [InputReportRel NULL REL_X m; InputSync NULL] world_init)
    /\ m = ((255 - 128) * sensitivity (mk_params (-1) 10)) ÷ 32
    /\ -40 <= m <= 39.
Proof.
  assert (Hax : In (ABS_X, REL_X) axes) by (simpl; auto).
  assert (Hv : 0 <= 255 <= 255) by lia.
  assert (Hs : 1 <= sensitivity (mk_params (-1) 10) <= 10) by (simpl; lia).
  repeat (split; [assumption |]).
  exact (axis_motion_documented_range (mk_params (-1) 10) 7%N ABS_X REL_X 255
           world_init Hax Hv Hs).
Defined.

(** ** What the translator reports, and where *)

(** X6. The translator reports nothing but its mapped codes.  The calls of
    an event are reports and flushes only; a relative report is REL_X or
    REL_Y on the pointer device; a key report carries the value of the event
    and is BTN_LEFT on the pointer device or one of KEY_B, KEY_E,
    KEY_RIGHTBRACE, KEY_LEFTBRACE on the key-emitter device.  The codes that
    are declared but not mapped (BTN_RIGHT, BTN_MIDDLE, KEY_C, KEY_R, KEY_G)
    are never reported. *)
Theorem event_reports_only_mapped_codes (cfg : params) (handle : ptr)
    (type code value : Z) (w : world) :
  exists calls : list call,
    joystick_event cfg handle type code value w = (tt, written calls w) /\
    Forall
      (fun c =>
         match c with
         | InputReportRel d rel _ =>
             d = virtual_mouse w /\ In rel [REL_X; REL_Y]
         | InputReportKey d key v =>
             v = value /\
             ((d = virtual_mouse w /\ key = BTN_LEFT) \/
              (d = virtual_keyboard w /\
               In key [KEY_B; KEY_E; KEY_RIGHTBRACE; KEY_LEFTBRACE]))
         | InputSync d => d = virtual_mouse w \/ d = virtual_keyboard w
         | _ => False
         end) calls /\
    (forall (d : ptr) (key v : Z),
        In key [BTN_RIGHT; BTN_MIDDLE; KEY_C; KEY_R; KEY_G] ->
        ~ In (InputReportKey d key v) calls).
Proof.
  destruct (event_shape cfg handle type code value)
    as (f & Hf & [Hn | [(rel & m & Hrel & Hr) | [Hm | (key & Hkey & Hk)]]]).
  - exists []. rewrite Hf, Hn. split; [reflexivity |].
    split; [constructor | intros d key v _ []].
  - eexists. rewrite Hf, Hr. split; [reflexivity |]. split.
    + constructor; [| constructor; [| constructor]]; cbn; auto.
    + intros d key v _ [E | [E | []]]; discriminate.
  - eexists. rewrite Hf, Hm. split; [reflexivity |]. split.
    + constructor; [| constructor; [| constructor]]; cbn; auto.
    + intros d key v Hin [E | [E | []]]; [| discriminate].
      inversion E; subst. simpl in Hin. intuition discriminate.
  - eexists. rewrite Hf, Hk. split; [reflexivity |]. split.
    + constructor; [| constructor; [| constructor]]; cbn; auto.
    + intros d k v Hin [E | [E | []]]; [| discriminate].
      inversion E; subst. simpl in Hin, Hkey.
      intuition (subst; discriminate).
Qed.

Lemma event_reports_only_mapped_codes_witness :
  In KEY_C [BTN_RIGHT; BTN_MIDDLE; KEY_C; KEY_R; KEY_G] /\
  exists calls : list call,
    joystick_event default_params 7%N EV_KEY BTN_B 1
      (mk_world 1%N 2%N 7%N [] [] [] [] [] []) =
      (tt, written calls (mk_world 1%N 2%N 7%N [] [] [] [] [] [])) /\
    ~ In (InputReportKey 2%N KEY_C 1) calls.
Proof.
  assert (Hin : In KEY_C [BTN_RIGHT; BTN_MIDDLE; KEY_C; KEY_R; KEY_G])
    by (simpl; auto).
  split; [exact Hin |].
  destruct (event_reports_only_mapped_codes default_params 7%N EV_KEY BTN_B 1
              (mk_world 1%N 2%N 7%N [] [] [] [] [] []))
    as (calls & E & _ & Hnever).
  exists calls. split; [exact E | exact (Hnever 2%N KEY_C 1 Hin)].
Defined.

(** ** create_virtual_devices: result and statics *)

Lemma create_path_cases (ans : create_answers) :
  ans_alloc_mouse ans = NULL
  \/ (ans_alloc_mouse ans <> NULL /\ ans_register_mouse ans <> 0)
  \/ (ans_alloc_mouse ans <> NULL /\ ans_register_mouse ans = 0 /\
      ans_alloc_keyboard ans = NULL)
  \/ (ans_alloc_mouse ans <> NULL /\ ans_register_mouse ans = 0 /\
      ans_alloc_keyboard ans <> NULL /\ ans_register_keyboard ans <> 0)
  \/ (ans_alloc_mouse ans <> NULL /\ ans_register_mouse ans = 0 /\
      ans_alloc_keyboard ans <> NULL /\ ans_register_keyboard ans = 0).
Proof.
  destruct (N.eq_dec (ans_alloc_mouse ans) NULL);
    destruct (Z.eq_dec (ans_register_mouse ans) 0);
    destruct (N.eq_dec (ans_alloc_keyboard ans) NULL);
    destruct (Z.eq_dec (ans_register_keyboard ans) 0);
    tauto.
Qed.

Lemma create_zero_inv (ans : create_answers) (w : world) :
  fst (create_virtual_devices ans w) = 0 ->
  ans_alloc_mouse ans <> NULL /\ ans_register_mouse ans = 0 /\
  ans_alloc_keyboard ans <> NULL /\ ans_register_keyboard ans = 0.
Proof.
  destruct (create_path_cases ans)
    as [Hm | [[Hm Hr] | [(Hm & Hr & Hk) | [(Hm & Hr & Hk & Hrk) | H]]]].
  - rewrite (create_no_mouse_memory ans w Hm). discriminate.
  - rewrite (create_mouse_register_fails ans w Hm Hr). cbn [fst].
    intros E. now contradiction Hr.
  - rewrite (create_no_keyboard_memory ans w Hm Hr Hk). discriminate.
  - rewrite (create_keyboard_register_fails ans w Hm Hr Hk Hrk). cbn [fst].
    intros E. now contradiction Hrk.
  - intros _. exact H.
Qed.

(** X7. Every report of the translator is declared.  After a successful
    [create_virtual_devices] whose two devices are distinct objects, each
    relative or key report of any event goes to a device whose capability
    bits contain the event type and the code reported. *)
Theorem reports_are_declared (cfg : params) (handle : ptr)
    (ans : create_answers) (w0 : world) (type code value : Z) :
  fst (create_virtual_devices ans w0) = 0 ->
  ans_alloc_mouse ans <> ans_alloc_keyboard ans ->
  let w1 := snd (create_virtual_devices ans w0) in
  exists calls : list call,
    joystick_event cfg handle type code value w1 = (tt, written calls w1) /\
    Forall (declared (dev_heap w1)) calls.
Proof.
  intros H0 Hne. apply create_zero_inv in H0.
  destruct H0 as (Hm & Hr & Hk & Hrk).
  rewrite (create_succeeds ans w0 Hm Hr Hk Hrk). cbn [snd].
  assert (Lk : forall h : list (ptr * input_dev),
             heap_lookup (ans_alloc_keyboard ans)
               ((ans_alloc_keyboard ans, virtual_keyboard_decl) :: h) =
             Some virtual_keyboard_decl)
    by (intros h; cbn [heap_lookup]; now rewrite N.eqb_refl).
  assert (Lm : forall h : list (ptr * input_dev),
             heap_lookup (ans_alloc_mouse ans)
               ((ans_alloc_keyboard ans, virtual_keyboard_decl)
                  :: (ans_alloc_mouse ans, virtual_mouse_decl) :: h) =
             Some virtual_mouse_decl).
  { intros h. cbn [heap_lookup].
    destruct (N.eqb_spec (ans_alloc_mouse ans) (ans_alloc_keyboard ans));
      [contradiction |]. now rewrite N.eqb_refl. }
  destruct (event_shape cfg handle type code value)
    as (f & Hf & [Hn | [(rel & m & Hrel & Hrl) | [Hb | (key & Hkey & Hky)]]]).
  - exists []. rewrite Hf, Hn. split; [reflexivity | constructor].
  - eexists. rewrite Hf, Hrl. split; [reflexivity |].
    cbn [virtual_mouse dev_heap].
    constructor; [| constructor; [exact I | constructor]].
    exists virtual_mouse_decl. split; [apply Lm |].
    split; [reflexivity |].
    destruct Hrel as [<- | [<- | []]]; reflexivity.
  - eexists. rewrite Hf, Hb. split; [reflexivity |].
    cbn [virtual_mouse dev_heap].
    constructor; [| constructor; [exact I | constructor]].
    exists virtual_mouse_decl. split; [apply Lm |].
    split; reflexivity.
  - eexists. rewrite Hf, Hky. split; [reflexivity |].
    cbn [virtual_keyboard dev_heap].
    constructor; [| constructor; [exact I | constructor]].
    exists virtual_keyboard_decl. split; [apply Lk |].
    split; [reflexivity |].
    destruct Hkey as [<- | [<- | [<- | [<- | []]]]]; reflexivity.
Qed.

Lemma reports_are_declared_witness :
  let ans := mk_create_answers 1%N 0 2%N 0 in
  fst (create_virtual_devices ans world_init) = 0 /\
  ans_alloc_mouse ans <> ans_alloc_keyboard ans /\
  exists calls : list call,
    joystick_event default_params 7%N EV_KEY BTN_Y 1
      (snd (create_virtual_devices ans world_init)) =
      (tt, written calls (snd (create_virtual_devices ans world_init))) /\
    Forall (declared (dev_heap (snd (create_virtual_devices ans world_init))))
      calls.
Proof.
  intros ans.
  assert (H0 : fst (create_virtual_devices ans world_init) = 0)
    by reflexivity.
  assert (Hne : ans_alloc_mouse ans <> ans_alloc_keyboard ans)
    by discriminate.
  split; [exact H0 |]. split; [exact Hne |].
  exact (reports_are_declared default_params 7%N ans world_init EV_KEY BTN_Y 1
           H0 Hne).
Defined.

(** ** joystick_connect: result and frame *)

Lemma connect_zero_inv (cfg : params) (ans : connect_answers)
    (handler : ptr) (dev : input_dev) (w : world) :
  fst (joystick_connect cfg ans handler dev w) = 0 ->
  identity_ok cfg dev /\ dual_axis dev /\ ans_kzalloc ans <> NULL /\
  ans_register_handle ans = 0 /\ ans_open_device ans = 0.
Proof.
  destruct (connect_outcome cfg ans handler dev w)
    as [(r & calls & Hr & E) | H]; [| intros _; exact H].
  rewrite E. cbn [fst]. intros E0. now contradiction Hr.
Qed.

Lemma connect_devices_frame (cfg : params) (ans : connect_answers)
    (handler : ptr) (dev : input_dev) (w : world) :
  virtual_mouse (snd (joystick_connect cfg ans handler dev w))
  = virtual_mouse w /\
  virtual_keyboard (snd (joystick_connect cfg ans handler dev w))
  = virtual_keyboard w /\
  dev_heap (snd (joystick_connect cfg ans handler dev w)) = dev_heap w /\
  dev_registered (snd (joystick_connect cfg ans handler dev w))
  = dev_registered w.
Proof.
  destruct (connect_outcome cfg ans handler dev w)
    as [(r & calls & Hr & E) | (Hid & Hcap & Hk & Hreg & Hopen)].
  - rewrite E. cbn [snd]. rewrite written_eq. cbn. repeat split.
  - rewrite (connect_succeeds cfg ans handler dev w Hid Hcap Hk Hreg Hopen).
    cbn. repeat split.
Qed.

(** X8. [joystick_connect] returns 0 exactly when the candidate passes the
    identity filter, reports both ABS_X and ABS_Y, the record is allocated,
    and registration and opening both answer 0. *)
Theorem connect_succeeds_iff (cfg : params) (ans : connect_answers)
    (handler : ptr) (dev : input_dev) (w : world) :
  fst (joystick_connect cfg ans handler dev w) = 0 <->
  (identity_ok cfg dev /\ dual_axis dev /\ ans_kzalloc ans <> NULL /\
   ans_register_handle ans = 0 /\ ans_open_device ans = 0).
Proof.
  split; [apply connect_zero_inv |].
  intros (Hid & Hcap & Hk & Hr & Ho).
  now rewrite (connect_succeeds cfg ans handler dev w Hid Hcap Hk Hr Ho).
Qed.

Lemma connect_succeeds_iff_witness :
  let ans := mk_connect_answers 7%N 0 0 in
  fst (joystick_connect default_params ans 1%N gamepad world_init) = 0 /\
  (identity_ok default_params gamepad /\ dual_axis gamepad /\
   ans_kzalloc ans <> NULL /\
   ans_register_handle ans = 0 /\ ans_open_device ans = 0).
Proof.
  intros ans.
  assert (H0 : fst (joystick_connect default_params ans 1%N gamepad
                      world_init) = 0) by reflexivity.
  split; [exact H0 |].
  exact (proj1 (connect_succeeds_iff default_params ans 1%N gamepad
                  world_init) H0).
Defined.

(** X9. Allocation failure.  For an accepted candidate, when [kzalloc]
    answers NULL the result is -ENOMEM; the two bit tests and the allocation
    are the only calls made (nothing is registered or opened), and the world
    is otherwise as it was. *)
Theorem connect_out_of_memory (cfg : params) (ans : connect_answers)
    (handler : ptr) (dev : input_dev) (w : world) :
  identity_ok cfg dev -> dual_axis dev -> ans_kzalloc ans = NULL ->
  let w' := snd (joystick_connect cfg ans handler dev w) in
  fst (joystick_connect cfg ans handler dev w) = - ENOMEM /\
  trace w' = trace w ++ [TestBit ABS_X true; TestBit ABS_Y true; Kzalloc NULL]
  /\ joystick_handle w' = joystick_handle w
  /\ handle_heap w' = handle_heap w
  /\ handle_registered w' = handle_registered w
  /\ handle_open w' = handle_open w.
Proof.
  intros Hid Hcap Hk. cbv zeta.
  rewrite (connect_no_memory cfg ans handler dev w Hid Hcap Hk).
  rewrite written_eq. cbn. repeat split.
Qed.

Lemma connect_out_of_memory_witness :
  identity_ok default_params gamepad /\ dual_axis gamepad /\
  ans_kzalloc (mk_connect_answers NULL 0 0) = NULL /\
  fst (joystick_connect default_params (mk_connect_answers NULL 0 0) 1%N
         gamepad world_init) = - ENOMEM /\
  handle_heap
    (snd (joystick_connect default_params (mk_connect_answers NULL 0 0) 1%N
            gamepad world_init)) = [].
Proof.
  assert (Hid : identity_ok default_params gamepad) by (left; reflexivity).
  assert (Hcap : dual_axis gamepad) by (split; reflexivity).
  split; [exact Hid |]. split; [exact Hcap |]. split; [reflexivity |].
  destruct (connect_out_of_memory default_params (mk_connect_answers NULL 0 0)
              1%N gamepad world_init Hid Hcap eq_refl)
    as (Hr & _ & _ & Hh & _).
  split; [exact Hr | exact Hh].
Defined.

(** X10. [joystick_connect] never touches the output devices: whatever the
    candidate and the answers, [virtual_mouse], [virtual_keyboard], the
    device objects and the registered devices are as before, and the trace
    only grows. *)
Theorem connect_leaves_output_devices (cfg : params) (ans : connect_answers)
    (handler : ptr) (dev : input_dev) (w : world) :
  let w' := snd (joystick_connect cfg ans handler dev w) in
  virtual_mouse w' = virtual_mouse w /\
  virtual_keyboard w' = virtual_keyboard w /\
  dev_heap w' = dev_heap w /\
  dev_registered w' = dev_registered w /\
  exists calls : list call, trace w' = trace w ++ calls.
Proof.
  cbv zeta.
  destruct (connect_outcome cfg ans handler dev w)
    as [(r & calls & Hr & E) | (Hid & Hcap & Hk & Hreg & Hopen)].
  - rewrite E. cbn [snd]. rewrite written_eq. cbn. repeat split. eauto.
  - rewrite (connect_succeeds cfg ans handler dev w Hid Hcap Hk Hreg Hopen).
    cbn. repeat split. eauto.
Qed.

(** ** joystick_disconnect *)

Lemma heap_lookup_free_other {A : Type} (p q : ptr) (h : list (ptr * A)) :
  q <> p -> heap_lookup q (heap_free p h) = heap_lookup q h.
Proof.
  intros Hne. induction h as [| [k a] h IH]; [reflexivity |].
  cbn [heap_free heap_lookup].
  destruct (N.eqb_spec p k) as [-> | Hpk].
  - destruct (N.eqb_spec q k); [contradiction | reflexivity].
  - cbn [heap_lookup]. now rewrite IH.
Qed.

Lemma In_remove_first_other (p q : ptr) (l : list ptr) :
  q <> p -> (In q (remove_first p l) <-> In q l).
Proof.
  intros Hne. induction l as [| k l IH]; [reflexivity |].
  cbn [remove_first]. destruct (N.eqb_spec p k) as [-> | Hpk].
  - cbn [In]. split; [auto |]. intros [E | H]; [congruence | exact H].
  - cbn [In]. now rewrite IH.
Qed.

Lemma disconnect_inv (handle : ptr) (w w' : world) :
  joystick_disconnect handle w = Some (tt, w') ->
  exists (r : input_handle) (dev : input_dev),
    heap_lookup handle (handle_heap w) = Some r /\ h_dev r = Some dev.
Proof.
  unfold joystick_disconnect.
  destruct (heap_lookup handle (handle_heap w)) as [r |]; [| discriminate].
  destruct (h_dev r) as [dev |] eqn:Hd; [| discriminate].
  intros _. exists r, dev. split; [reflexivity | exact Hd].
Qed.

(** X11. Connect then disconnect is a round trip on the bindings.  After a
    successful connect, the disconnect of the new handle succeeds and leaves
    the allocated records, the registered handles, the open handles and the
    output devices exactly as they were before the connect; what remains is
    the trace and [joystick_handle], which keeps the released address. *)
Theorem connect_disconnect_round_trip (cfg : params) (ans : connect_answers)
    (handler : ptr) (dev : input_dev) (w : world) :
  fst (joystick_connect cfg ans handler dev w) = 0 ->
  let w1 := snd (joystick_connect cfg ans handler dev w) in
  exists w2 : world,
    joystick_disconnect (ans_kzalloc ans) w1 = Some (tt, w2) /\
    handle_heap w2 = handle_heap w /\
    handle_registered w2 = handle_registered w /\
    handle_open w2 = handle_open w /\
    dev_heap w2 = dev_heap w /\
    dev_registered w2 = dev_registered w /\
    virtual_mouse w2 = virtual_mouse w /\
    virtual_keyboard w2 = virtual_keyboard w /\
    joystick_handle w2 = ans_kzalloc ans /\
    trace w2 =
      trace w1 ++
      [Printk KERN_INFO
         ("joystick_drawer: Disconnected from " ++ name dev ++ nl);
       InputCloseDevice (ans_kzalloc ans);
       InputUnregisterHandle (ans_kzalloc ans);
       Kfree (ans_kzalloc ans)].
Proof.
  intros H0. apply connect_zero_inv in H0.
  destruct H0 as (Hid & Hcap & Hk & Hr & Ho).
  rewrite (connect_succeeds cfg ans handler dev w Hid Hcap Hk Hr Ho).
  cbv zeta. cbn [snd].
  eexists. split.
  - apply disconnect_bound with
      (r := mk_input_handle (Some dev) handler "joystick_drawer");
      cbn [handle_heap heap_lookup h_dev]; [now rewrite N.eqb_refl |
                                            reflexivity].
  - cbn [handle_heap handle_registered handle_open dev_heap dev_registered
         virtual_mouse virtual_keyboard joystick_handle trace heap_free
         remove_first].
    rewrite N.eqb_refl. repeat split.
Qed.

Lemma connect_disconnect_round_trip_witness :
  let ans := mk_connect_answers 7%N 0 0 in
  fst (joystick_connect default_params ans 1%N gamepad world_init) = 0 /\
  exists w2 : world,
    joystick_disconnect 7%N
      (snd (joystick_connect default_params ans 1%N gamepad world_init)) =
      Some (tt, w2) /\
    handle_heap w2 = [] /\ handle_registered w2 = [] /\ handle_open w2 = [].
Proof.
  intros ans.
  assert (H0 : fst (joystick_connect default_params ans 1%N gamepad
                      world_init) = 0) by reflexivity.
  split; [exact H0 |].
  destruct (connect_disconnect_round_trip default_params ans 1%N gamepad
              world_init H0) as (w2 & E & Hh & Hr & Ho & _).
  exists w2. repeat split; assumption.
Defined.

(** X12. A disconnect concerns one Binding only.  When the disconnect of
    [handle] succeeds, every other handle keeps its record, stays registered
    and stays open exactly if it was; the statics and the output devices are
    not written. *)
Theorem disconnect_leaves_other_bindings (handle : ptr) (w w' : world) :
  joystick_disconnect handle w = Some (tt, w') ->
  (forall other : ptr,
      other <> handle ->
      heap_lookup other (handle_heap w') = heap_lookup other (handle_heap w) /\
      (In other (handle_registered w') <-> In other (handle_registered w)) /\
      (In other (handle_open w') <-> In other (handle_open w)))
  /\ joystick_handle w' = joystick_handle w
  /\ virtual_mouse w' = virtual_mouse w
  /\ virtual_keyboard w' = virtual_keyboard w
  /\ dev_heap w' = dev_heap w
  /\ dev_registered w' = dev_registered w.
Proof.
  intros E. destruct (disconnect_inv handle w w' E) as (r & dev & Hl & Hd).
  rewrite (disconnect_bound handle r dev w Hl Hd) in E.
  inversion E; subst w'; clear E.
  cbn [handle_heap handle_registered handle_open joystick_handle
       virtual_mouse virtual_keyboard dev_heap dev_registered].
  split; [| repeat split].
  intros other Hne. split; [now apply heap_lookup_free_other |].
  split; now apply In_remove_first_other.
Qed.

Lemma disconnect_leaves_other_bindings_witness :
  let w2 :=
    run_connects default_params 1%N
      [(mk_connect_answers 7%N 0 0, gamepad);
       (mk_connect_answers 8%N 0 0, second_gamepad)] world_init in
  exists w3 : world,
    joystick_disconnect 7%N w2 = Some (tt, w3) /\
    8%N <> 7%N /\
    heap_lookup 8%N (handle_heap w3) = heap_lookup 8%N (handle_heap w2) /\
    (In 8%N (handle_open w3) <-> In 8%N (handle_open w2)).
Proof.
  intros w2.
  assert (E : joystick_disconnect 7%N w2 =
              Some (tt, snd (match joystick_disconnect 7%N w2 with
                             | Some r => r
                             | None => (tt, w2)
                             end))) by reflexivity.
  eexists. split; [exact E |].
  assert (Hne : 8%N <> 7%N) by discriminate.
  split; [exact Hne |].
  destruct (proj1 (disconnect_leaves_other_bindings 7%N w2 _ E) 8%N Hne)
    as (Hh & _ & Ho).
  split; [exact Hh | exact Ho].
Defined.

(** ** The invariant of the bindings *)

Lemma map_fst_heap_free {A : Type} (p : ptr) (h : list (ptr * A)) :
  map fst (heap_free p h) = remove_first p (map fst h).
Proof.
  induction h as [| [k a] h IH]; [reflexivity |].
  cbn [heap_free map fst remove_first].
  destruct (N.eqb p k); [reflexivity |]. cbn [map fst]. now rewrite IH.
Qed.

Lemma Forall_heap_free {A : Type} (P : ptr * A -> Prop) (p : ptr)
    (h : list (ptr * A)) :
  Forall P h -> Forall P (heap_free p h).
Proof.
  induction 1 as [| [k a] h Hx Hh IH]; [constructor |].
  cbn [heap_free]. destruct (N.eqb p k); [exact Hh | now constructor].
Qed.

Lemma heap_lookup_In {A : Type} (p : ptr) (h : list (ptr * A)) :
  In p (map fst h) -> exists a : A, heap_lookup p h = Some a /\ In (p, a) h.
Proof.
  induction h as [| [k a] h IH]; [intros [] |].
  cbn [map fst In heap_lookup]. intros Hin.
  destruct (N.eqb_spec p k) as [-> | Hne].
  - exists a. split; [reflexivity | now left].
  - destruct Hin as [E | Hin]; [congruence |].
    destruct (IH Hin) as (b & Hl & Hb). exists b. split; [exact Hl | now right].
Qed.

Lemma consistent_frame (w w' : world) :
  handle_heap w' = handle_heap w ->
  handle_registered w' = handle_registered w ->
  handle_open w' = handle_open w ->
  bindings_consistent w -> bindings_consistent w'.
Proof.
  unfold bindings_consistent. intros -> -> ->. exact (fun H => H).
Qed.

Lemma connect_consistent (cfg : params) (ans : connect_answers)
    (handler : ptr) (dev : input_dev) (w : world) :
  bindings_consistent w ->
  bindings_consistent (snd (joystick_connect cfg ans handler dev w)).
Proof.
  intros Hc.
  destruct (connect_outcome cfg ans handler dev w)
    as [(r & calls & Hr & E) | (Hid & Hcap & Hk & Hreg & Hopen)].
  - rewrite E. cbn [snd].
    apply (consistent_frame w); [| | | exact Hc]; now rewrite written_eq.
  - rewrite (connect_succeeds cfg ans handler dev w Hid Hcap Hk Hreg Hopen).
    destruct Hc as (H1 & H2 & H3). unfold bindings_consistent. cbn.
    rewrite H1, H2. repeat split.
    constructor; [| exact H3]. cbn. eauto.
Qed.

Lemma disconnect_consistent (handle : ptr) (w : world) :
  bindings_consistent w -> In handle (handle_registered w) ->
  exists w' : world,
    joystick_disconnect handle w = Some (tt, w') /\
    bindings_consistent w' /\
    handle_registered w' = remove_first handle (handle_registered w) /\
    virtual_mouse w' = virtual_mouse w /\
    virtual_keyboard w' = virtual_keyboard w /\
    dev_heap w' = dev_heap w /\
    dev_registered w' = dev_registered w.
Proof.
  intros (H1 & H2 & H3) Hin. rewrite H1 in Hin.
  destruct (heap_lookup_In handle (handle_heap w) Hin) as (r & Hl & Hr).
  rewrite Forall_forall in H3. destruct (H3 _ Hr) as (dev & Hd & _).
  cbn [snd] in Hd.
  eexists. split; [exact (disconnect_bound handle r dev w Hl Hd) |].
  cbn. split; [| repeat split].
  unfold bindings_consistent. cbn.
  rewrite H1, H2, map_fst_heap_free. repeat split.
  apply Forall_heap_free. now apply Forall_forall.
Qed.

(** X13. Bindings are never partially visible.  Between callbacks every
    allocated Binding record is registered and open and has its device and
    its name set: this holds at module load and is kept by every connect
    (whatever the answers), by every event, and by the disconnect of any
    registered handle, which then cannot fault. *)
Theorem bindings_stay_consistent :
  bindings_consistent world_init /\
  (forall (cfg : params) (ans : connect_answers) (handler : ptr)
          (dev : input_dev) (w : world),
      bindings_consistent w ->
      bindings_consistent (snd (joystick_connect cfg ans handler dev w))) /\
  (forall (cfg : params) (handle : ptr) (type code value : Z) (w : world),
      bindings_consistent w ->
      bindings_consistent (snd (joystick_event cfg handle type code value w)))
  /\
  (forall (handle : ptr) (w : world),
      bindings_consistent w -> In handle (handle_registered w) ->
      exists w' : world,
        joystick_disconnect handle w = Some (tt, w') /\
        bindings_consistent w').
Proof.
  split; [repeat split; constructor |].
  split; [exact connect_consistent |].
  split.
  - intros cfg handle type code value w Hc.
    destruct (event_shape cfg handle type code value) as (f & Hf & _).
    rewrite Hf. cbn [snd].
    apply (consistent_frame w); [| | | exact Hc]; now rewrite written_eq.
  - intros handle w Hc Hin.
    destruct (disconnect_consistent handle w Hc Hin) as (w' & E & Hc' & _).
    eauto.
Qed.

Lemma bindings_stay_consistent_witness :
  let w1 :=
    snd (joystick_connect default_params (mk_connect_answers 7%N 0 0) 1%N
           gamepad world_init) in
  bindings_consistent w1 /\
  In 7%N (handle_registered w1) /\
  exists w' : world,
    joystick_disconnect 7%N w1 = Some (tt, w') /\ bindings_consistent w'.
Proof.
  intros w1.
  destruct bindings_stay_consistent as (H0 & Hconn & _ & Hdisc).
  assert (H1 : bindings_consistent w1)
    by exact (Hconn default_params (mk_connect_answers 7%N 0 0) 1%N gamepad
                world_init H0).
  assert (Hin : In 7%N (handle_registered w1)) by (simpl; auto).
  split; [exact H1 |]. split; [exact Hin |].
  exact (Hdisc 7%N w1 H1 Hin).
Defined.

(** ** Module load and unload *)

(** X14. [create_virtual_devices] returns 0 exactly when both allocations
    answer an object and both registrations answer 0; and, whatever it
    returns, it does not touch the Bindings or [joystick_handle]. *)
Theorem create_succeeds_iff (ans : create_answers) (w : world) :
  (fst (create_virtual_devices ans w) = 0 <->
   (ans_alloc_mouse ans <> NULL /\ ans_register_mouse ans = 0 /\
    ans_alloc_keyboard ans <> NULL /\ ans_register_keyboard ans = 0))
  /\
  let w' := snd (create_virtual_devices ans w) in
  joystick_handle w' = joystick_handle w /\
  handle_heap w' = handle_heap w /\
  handle_registered w' = handle_registered w /\
  handle_open w' = handle_open w.
Proof.
  split.
  - split; [apply create_zero_inv |].
    intros (Hm & Hr & Hk & Hrk).
    now rewrite (create_succeeds ans w Hm Hr Hk Hrk).
  - cbv zeta.
    destruct (create_path_cases ans)
      as [Hm | [[Hm Hr] | [(Hm & Hr & Hk) | [(Hm & Hr & Hk & Hrk) |
                                              (Hm & Hr & Hk & Hrk)]]]].
    + rewrite (create_no_mouse_memory ans w Hm), written_eq. cbn.
      repeat split.
    + rewrite (create_mouse_register_fails ans w Hm Hr), written_eq. cbn.
      repeat split.
    + rewrite (create_no_keyboard_memory ans w Hm Hr Hk), written_eq. cbn.
      repeat split.
    + rewrite (create_keyboard_register_fails ans w Hm Hr Hk Hrk), written_eq.
      cbn. repeat split.
    + rewrite (create_succeeds ans w Hm Hr Hk Hrk). cbn. repeat split.
Qed.

Lemma create_succeeds_iff_witness :
  let ans := mk_create_answers 1%N 0 2%N 0 in
  (ans_alloc_mouse ans <> NULL /\ ans_register_mouse ans = 0 /\
   ans_alloc_keyboard ans <> NULL /\ ans_register_keyboard ans = 0) /\
  fst (create_virtual_devices ans world_init) = 0.
Proof.
  intros ans.
  assert (H : ans_alloc_mouse ans <> NULL /\ ans_register_mouse ans = 0 /\
              ans_alloc_keyboard ans <> NULL /\
              ans_register_keyboard ans = 0)
    by (repeat split; discriminate).
  split; [exact H |].
  exact (proj2 (proj1 (create_succeeds_iff ans world_init)) H).
Defined.

(** X15. The statics after a failed [create_virtual_devices].  When the
    registration of the pointer device fails, the device object is freed but
    [virtual_mouse] keeps its address.  When the key-emitter device cannot be
    allocated or registered, [virtual_mouse] is reset to NULL; after a failed
    registration [virtual_keyboard] keeps the address of the freed object.
    When the pointer device cannot be allocated [virtual_mouse] is NULL. *)
Theorem create_failure_statics (ans : create_answers) (w : world) :
  let w' := snd (create_virtual_devices ans w) in
  (ans_alloc_mouse ans = NULL -> virtual_mouse w' = NULL)
  /\
  (ans_alloc_mouse ans <> NULL -> ans_register_mouse ans <> 0 ->
   virtual_mouse w' = ans_alloc_mouse ans /\ dev_heap w' = dev_heap w)
  /\
  (ans_alloc_mouse ans <> NULL -> ans_register_mouse ans = 0 ->
   ans_alloc_keyboard ans = NULL ->
   virtual_mouse w' = NULL /\ virtual_keyboard w' = NULL)
  /\
  (ans_alloc_mouse ans <> NULL -> ans_register_mouse ans = 0 ->
   ans_alloc_keyboard ans <> NULL -> ans_register_keyboard ans <> 0 ->
   virtual_mouse w' = NULL /\
   virtual_keyboard w' = ans_alloc_keyboard ans /\
   dev_heap w' = dev_heap w).
Proof.
  cbv zeta. split; [| split; [| split]].
  - intros Hm. now rewrite (create_no_mouse_memory ans w Hm).
  - intros Hm Hr.
    rewrite (create_mouse_register_fails ans w Hm Hr), written_eq.
    split; reflexivity.
  - intros Hm Hr Hk.
    rewrite (create_no_keyboard_memory ans w Hm Hr Hk).
    split; reflexivity.
  - intros Hm Hr Hk Hrk.
    rewrite (create_keyboard_register_fails ans w Hm Hr Hk Hrk), written_eq.
    repeat split.
Qed.

Lemma create_failure_statics_witness :
  let mouse_fails := mk_create_answers 1%N (-12) 2%N 0 in
  let keyboard_fails := mk_create_answers 1%N 0 2%N (-12) in
  (virtual_mouse (snd (create_virtual_devices mouse_fails world_init)) = 1%N
   /\ dev_heap (snd (create_virtual_devices mouse_fails world_init)) = [])
  /\
  (virtual_mouse (snd (create_virtual_devices keyboard_fails world_init))
   = NULL /\
   virtual_keyboard (snd (create_virtual_devices keyboard_fails world_init))
   = 2%N /\
   dev_heap (snd (create_virtual_devices keyboard_fails world_init)) = []).
Proof.
  intros mouse_fails keyboard_fails.
  split.
  - apply (proj1 (proj2 (create_failure_statics mouse_fails world_init)));
      [discriminate | simpl; lia].
  - apply (proj2 (proj2 (proj2 (create_failure_statics keyboard_fails
                                  world_init))));
      [discriminate | reflexivity | discriminate | simpl; lia].
Defined.

Lemma bind_eq {A B : Type} (m : M A) (k : A -> M B) (w w' : world) (a : A) :
  m w = (a, w') -> bind m k w = k a w'.
Proof. intros E. unfold bind. now rewrite E. Qed.

(** The cleanup block, case by case. *)
Lemma unregister_virtual_devices_eq (w : world) :
  unregister_virtual_devices w =
    (tt,
     mk_world NULL NULL (joystick_handle w)
       (let h := if N.eqb (virtual_keyboard w) NULL then dev_heap w
                 else heap_free (virtual_keyboard w) (dev_heap w) in
        if N.eqb (virtual_mouse w) NULL then h
        else heap_free (virtual_mouse w) h)
       (let r := if N.eqb (virtual_keyboard w) NULL then dev_registered w
                 else remove_first (virtual_keyboard w) (dev_registered w) in
        if N.eqb (virtual_mouse w) NULL then r
        else remove_first (virtual_mouse w) r)
       (handle_heap w) (handle_registered w) (handle_open w)
       (trace w ++
        (if N.eqb (virtual_keyboard w) NULL then []
         else [InputUnregisterDevice (virtual_keyboard w)]) ++
        (if N.eqb (virtual_mouse w) NULL then []
         else [InputUnregisterDevice (virtual_mouse w)]))).
Proof.
  destruct w as [vm vk jh dh dr hh hr ho tr].
  unfold unregister_virtual_devices.
  cbn [virtual_mouse virtual_keyboard joystick_handle dev_heap dev_registered
       handle_heap handle_registered handle_open trace].
  destruct (N.eqb_spec vk NULL) as [-> | Hk];
    destruct (N.eqb_spec vm NULL) as [-> | Hm].
  - run_monad. cbn. rewrite ?app_nil_r. reflexivity.
  - apply N.eqb_neq in Hm.
    repeat (run_monad; rewrite ?Hm; cbn [negb N.eqb NULL]).
    reflexivity.
  - apply N.eqb_neq in Hk.
    repeat (run_monad; rewrite ?Hk; cbn [negb N.eqb NULL]).
    cbn. rewrite ?app_nil_r. reflexivity.
  - apply N.eqb_neq in Hk. apply N.eqb_neq in Hm.
    repeat (run_monad; rewrite ?Hk, ?Hm; cbn [negb]).
    cbn. rewrite <- ?app_assoc. reflexivity.
Qed.

(** X16. The cleanup of the output devices is idempotent: it leaves both
    statics NULL, and running it again changes nothing and calls nothing. *)
Theorem unregister_virtual_devices_idempotent (w : world) :
  let w1 := snd (unregister_virtual_devices w) in
  virtual_mouse w1 = NULL /\ virtual_keyboard w1 = NULL /\
  unregister_virtual_devices w1 = (tt, w1).
Proof.
  cbv zeta. rewrite (unregister_virtual_devices_eq w). cbn [snd].
  split; [reflexivity |]. split; [reflexivity |].
  rewrite unregister_virtual_devices_eq. cbn. now rewrite app_nil_r.
Qed.

(** *** joystick_drawer_init *)

Lemma match_joystick_ids (dev : input_dev) :
  input_match_device joystick_ids dev = Z.testbit (evbit dev) EV_ABS.
Proof.
  unfold input_match_device, joystick_ids, input_match_device_id.
  cbn [existsb id_evbit]. rewrite orb_false_r.
  change (BIT_MASK EV_ABS) with (2 ^ 3). change EV_ABS with 3.
  assert (E : Z.land (2 ^ 3) (evbit dev) =
              if Z.testbit (evbit dev) 3 then 2 ^ 3 else 0).
  { apply Z.bits_inj'. intros n Hn.
    rewrite Z.land_spec, Z.pow2_bits_eqb by lia.
    destruct (Z.eqb_spec 3 n) as [<- | Hne].
    - destruct (Z.testbit (evbit dev) 3); [reflexivity |].
      now rewrite Z.bits_0.
    - cbn [andb].
      destruct (Z.testbit (evbit dev) 3);
        [rewrite Z.pow2_bits_eqb by lia; symmetry; now apply Z.eqb_neq |
         now rewrite Z.bits_0]. }
  rewrite E. now destruct (Z.testbit (evbit dev) 3).
Qed.

Lemma register_handler_fails (cfg : params) (handler : ptr) (res : Z)
    (present : list (connect_answers * input_dev)) (w : world) :
  res <> 0 -> input_register_handler cfg handler res present w = (res, w).
Proof.
  intros H. apply Z.eqb_neq in H. unfold input_register_handler.
  rewrite H. reflexivity.
Qed.

Lemma register_handler_succeeds (cfg : params) (handler : ptr)
    (present : list (connect_answers * input_dev)) (w : world) :
  input_register_handler cfg handler 0 present w =
    (0, run_connects cfg handler
          (filter (fun r => Z.testbit (evbit (snd r)) EV_ABS) present) w).
Proof.
  unfold input_register_handler. cbn [Z.eqb]. unfold bind, modify, ret.
  f_equal. f_equal. apply filter_ext. intros r. apply match_joystick_ids.
Qed.

Section InitPaths.
Variables (cfg : params) (handler : ptr) (ans : init_answers) (w : world).

Lemma init_create_fails :
  fst (create_virtual_devices (ans_create ans) w) <> 0 ->
  joystick_drawer_init cfg handler ans w =
    create_virtual_devices (ans_create ans) w.
Proof.
  intros H. unfold joystick_drawer_init.
  destruct (create_virtual_devices (ans_create ans) w) as [r w'] eqn:E.
  rewrite (bind_eq _ _ _ _ _ E). cbn [fst] in H.
  apply Z.eqb_neq in H. now rewrite H.
Qed.

Hypothesis Hm : ans_alloc_mouse (ans_create ans) <> NULL.
Hypothesis Hr : ans_register_mouse (ans_create ans) = 0.
Hypothesis Hk : ans_alloc_keyboard (ans_create ans) <> NULL.
Hypothesis Hrk : ans_register_keyboard (ans_create ans) = 0.

Lemma init_handler_fails :
  ans_register_handler ans <> 0 ->
  joystick_drawer_init cfg handler ans w =
    (ans_register_handler ans,
     mk_world NULL NULL (joystick_handle w) (dev_heap w) (dev_registered w)
       (handle_heap w) (handle_registered w) (handle_open w)
       (trace w ++
        [InputAllocateDevice (ans_alloc_mouse (ans_create ans));
         InputRegisterDevice (ans_alloc_mouse (ans_create ans)) 0;
         InputAllocateDevice (ans_alloc_keyboard (ans_create ans));
         InputRegisterDevice (ans_alloc_keyboard (ans_create ans)) 0;
         Printk KERN_ERR
           ("joystick_drawer: Failed to register input handler" ++ nl);
         InputUnregisterDevice (ans_alloc_keyboard (ans_create ans));
         InputUnregisterDevice (ans_alloc_mouse (ans_create ans))])).
Proof.
  intros Hh. unfold joystick_drawer_init.
  rewrite (bind_eq _ _ _ _ _ (create_succeeds (ans_create ans) w Hm Hr Hk Hrk)).
  cbn [Z.eqb negb].
  rewrite (bind_eq _ _ _ _ _ (register_handler_fails cfg handler _ _ _ Hh)).
  apply Z.eqb_neq in Hh. rewrite Hh. cbn [negb].
  unfold bind at 1. unfold printk, modify.
  rewrite (bind_eq _ _ _ _ _ (unregister_virtual_devices_eq _)).
  unfold ret, log.
  cbn [virtual_mouse virtual_keyboard joystick_handle dev_heap dev_registered
       handle_heap handle_registered handle_open trace].
  apply N.eqb_neq in Hm. apply N.eqb_neq in Hk. rewrite Hm, Hk.
  cbn [heap_free remove_first]. rewrite !N.eqb_refl.
  cbn [heap_free remove_first]. rewrite !N.eqb_refl.
  rewrite <- !app_assoc. reflexivity.
Qed.

Lemma init_succeeds :
  ans_register_handler ans = 0 ->
  joystick_drawer_init cfg handler ans w =
    (0,
     written [Printk KERN_INFO ("joystick_drawer: Module loaded" ++ nl)]
       (run_connects cfg handler
          (filter (fun r => Z.testbit (evbit (snd r)) EV_ABS)
             (ans_present ans))
          (snd (create_virtual_devices (ans_create ans) w)))).
Proof.
  intros Hh. unfold joystick_drawer_init.
  rewrite (bind_eq _ _ _ _ _ (create_succeeds (ans_create ans) w Hm Hr Hk Hrk)).
  cbn [Z.eqb negb]. rewrite Hh.
  rewrite (bind_eq _ _ _ _ _ (register_handler_succeeds cfg handler _ _)).
  cbn [Z.eqb negb].
  rewrite (create_succeeds (ans_create ans) w Hm Hr Hk Hrk). reflexivity.
Qed.
End InitPaths.

Lemma init_zero_inv (cfg : params) (handler : ptr) (ans : init_answers)
    (w : world) :
  fst (joystick_drawer_init cfg handler ans w) = 0 ->
  (ans_alloc_mouse (ans_create ans) <> NULL /\
   ans_register_mouse (ans_create ans) = 0 /\
   ans_alloc_keyboard (ans_create ans) <> NULL /\
   ans_register_keyboard (ans_create ans) = 0) /\
  ans_register_handler ans = 0.
Proof.
  intros H0.
  destruct (Z.eq_dec (fst (create_virtual_devices (ans_create ans) w)) 0)
    as [Hc | Hc].
  - pose proof (create_zero_inv _ _ Hc) as (Hm & Hr & Hk & Hrk).
    split; [repeat split; assumption |].
    destruct (Z.eq_dec (ans_register_handler ans) 0) as [Hh | Hh];
      [exact Hh |].
    rewrite (init_handler_fails cfg handler ans w Hm Hr Hk Hrk Hh) in H0.
    cbn [fst] in H0. contradiction.
  - rewrite (init_create_fails cfg handler ans w Hc) in H0. contradiction.
Qed.

(** X17. [joystick_drawer_init] returns 0 exactly when both output devices are
    created (two allocations, two registrations) and the registration of the
    handler answers 0. *)
Theorem init_succeeds_iff (cfg : params) (handler : ptr) (ans : init_answers)
    (w : world) :
  fst (joystick_drawer_init cfg handler ans w) = 0 <->
  ((ans_alloc_mouse (ans_create ans) <> NULL /\
    ans_register_mouse (ans_create ans) = 0 /\
    ans_alloc_keyboard (ans_create ans) <> NULL /\
    ans_register_keyboard (ans_create ans) = 0) /\
   ans_register_handler ans = 0).
Proof.
  split; [apply init_zero_inv |].
  intros ((Hm & Hr & Hk & Hrk) & Hh).
  now rewrite (init_succeeds cfg handler ans w Hm Hr Hk Hrk Hh).
Qed.

Lemma init_succeeds_iff_witness :
  let ans := mk_init_answers (mk_create_answers 1%N 0 2%N 0) 0 [] in
  fst (joystick_drawer_init default_params 9%N ans world_init) = 0 /\
  ((ans_alloc_mouse (ans_create ans) <> NULL /\
    ans_register_mouse (ans_create ans) = 0 /\
    ans_alloc_keyboard (ans_create ans) <> NULL /\
    ans_register_keyboard (ans_create ans) = 0) /\
   ans_register_handler ans = 0).
Proof.
  intros ans.
  assert (H0 : fst (joystick_drawer_init default_params 9%N ans world_init)
               = 0) by (vm_compute; reflexivity).
  split; [exact H0 |].
  exact (proj1 (init_succeeds_iff default_params 9%N ans world_init) H0).
Defined.

(** X18. A failed module load leaves nothing behind: whenever
    [joystick_drawer_init] returns an error, the registered devices, the
    device objects and the Bindings are those there were before; and when it
    is the registration of the handler that fails, both output devices have
    been unregistered, key-emitter first, and both statics are NULL. *)
Theorem init_failure_leaves_nothing (cfg : params) (handler : ptr)
    (ans : init_answers) (w : world) :
  let r := fst (joystick_drawer_init cfg handler ans w) in
  let w' := snd (joystick_drawer_init cfg handler ans w) in
  (r <> 0 ->
   dev_registered w' = dev_registered w /\ dev_heap w' = dev_heap w /\
   handle_heap w' = handle_heap w /\
   handle_registered w' = handle_registered w /\
   handle_open w' = handle_open w /\
   joystick_handle w' = joystick_handle w)
  /\
  (fst (create_virtual_devices (ans_create ans) w) = 0 ->
   ans_register_handler ans <> 0 ->
   r = ans_register_handler ans /\
   virtual_mouse w' = NULL /\ virtual_keyboard w' = NULL /\
   exists calls : list call,
     trace w' =
       calls ++
       [InputUnregisterDevice (ans_alloc_keyboard (ans_create ans));
        InputUnregisterDevice (ans_alloc_mouse (ans_create ans))]).
Proof.
  cbv zeta. split.
  - intros Hfail.
    destruct (Z.eq_dec (fst (create_virtual_devices (ans_create ans) w)) 0)
      as [Hc | Hc].
    + pose proof (create_zero_inv _ _ Hc) as (Hm & Hr & Hk & Hrk).
      destruct (Z.eq_dec (ans_register_handler ans) 0) as [Hh | Hh].
      * rewrite (init_succeeds cfg handler ans w Hm Hr Hk Hrk Hh) in Hfail.
        now contradiction Hfail.
      * rewrite (init_handler_fails cfg handler ans w Hm Hr Hk Hrk Hh). cbn.
        repeat split.
    + rewrite (init_create_fails cfg handler ans w Hc).
      destruct (create_path_cases (ans_create ans))
        as [Hm | [[Hm Hr] | [(Hm & Hr & Hk) | [(Hm & Hr & Hk & Hrk) |
                                                (Hm & Hr & Hk & Hrk)]]]].
      * rewrite (create_no_mouse_memory _ w Hm), written_eq. cbn.
        repeat split.
      * rewrite (create_mouse_register_fails _ w Hm Hr), written_eq. cbn.
        repeat split.
      * rewrite (create_no_keyboard_memory _ w Hm Hr Hk), written_eq. cbn.
        repeat split.
      * rewrite (create_keyboard_register_fails _ w Hm Hr Hk Hrk), written_eq.
        cbn. repeat split.
      * rewrite (create_succeeds _ w Hm Hr Hk Hrk) in Hc.
        now contradiction Hc.
  - intros Hc Hh. pose proof (create_zero_inv _ _ Hc) as (Hm & Hr & Hk & Hrk).
    rewrite (init_handler_fails cfg handler ans w Hm Hr Hk Hrk Hh). cbn.
    repeat split.
    eexists (trace w ++ [_; _; _; _; _]).
    rewrite <- app_assoc. reflexivity.
Qed.

Lemma init_failure_leaves_nothing_witness :
  let ans := mk_init_answers (mk_create_answers 1%N 0 2%N 0) (-4) [] in
  let r := fst (joystick_drawer_init default_params 9%N ans world_init) in
  let w' := snd (joystick_drawer_init default_params 9%N ans world_init) in
  r <> 0 /\
  fst (create_virtual_devices (ans_create ans) world_init) = 0 /\
  ans_register_handler ans <> 0 /\
  dev_registered w' = [] /\ dev_heap w' = [] /\
  r = -4 /\ virtual_mouse w' = NULL /\ virtual_keyboard w' = NULL.
Proof.
  intros ans r w'.
  assert (Hf : r <> 0) by (vm_compute; discriminate).
  assert (Hc : fst (create_virtual_devices (ans_create ans) world_init) = 0)
    by reflexivity.
  assert (Hh : ans_register_handler ans <> 0) by (simpl; lia).
  destruct (init_failure_leaves_nothing default_params 9%N ans world_init)
    as (A & B).
  destruct (A Hf) as (A1 & A2 & _).
  destruct (B Hc Hh) as (B1 & B2 & B3 & _).
  repeat (split; [assumption |]). exact B3.
Defined.

(** X19. At module load only devices that report absolute axes are offered:
    when none of the devices present has EV_ABS among its event bits, a
    successful [joystick_drawer_init] creates no Binding, whatever their axis
    bits and the answers of the host. *)
Theorem init_binds_only_abs_devices (cfg : params) (handler : ptr)
    (ans : init_answers) (w : world) :
  fst (joystick_drawer_init cfg handler ans w) = 0 ->
  Forall (fun r : connect_answers * input_dev =>
            Z.testbit (evbit (snd r)) EV_ABS = false) (ans_present ans) ->
  let w' := snd (joystick_drawer_init cfg handler ans w) in
  handle_heap w' = handle_heap w /\
  handle_registered w' = handle_registered w /\
  handle_open w' = handle_open w /\
  joystick_handle w' = joystick_handle w.
Proof.
  intros H0 Hnone. apply init_zero_inv in H0.
  destruct H0 as ((Hm & Hr & Hk & Hrk) & Hh).
  rewrite (init_succeeds cfg handler ans w Hm Hr Hk Hrk Hh). cbv zeta.
  assert (E : filter (fun r : connect_answers * input_dev =>
                        Z.testbit (evbit (snd r)) EV_ABS) (ans_present ans)
              = []).
  { induction Hnone as [| r l Hr0 Hl IH]; [reflexivity |].
    cbn [filter]. now rewrite Hr0. }
  rewrite E. cbn [run_connects snd].
  rewrite (create_succeeds _ w Hm Hr Hk Hrk), written_eq. cbn.
  repeat split.
Qed.

Lemma init_binds_only_abs_devices_witness :
  let touch_free :=
    mk_input_dev "Axes without EV_ABS" "usb-4/input0" (mk_input_id 3 1 2 1)
      3 0 0 3 in
  let ans :=
    mk_init_answers (mk_create_answers 1%N 0 2%N 0) 0
      [(mk_connect_answers 7%N 0 0, touch_free)] in
  fst (joystick_drawer_init default_params 9%N ans world_init) = 0 /\
  Forall (fun r : connect_answers * input_dev =>
            Z.testbit (evbit (snd r)) EV_ABS = false) (ans_present ans) /\
  dual_axis touch_free /\
  handle_registered
    (snd (joystick_drawer_init default_params 9%N ans world_init)) = [].
Proof.
  intros touch_free ans.
  assert (H0 : fst (joystick_drawer_init default_params 9%N ans world_init)
               = 0) by reflexivity.
  assert (Hn : Forall (fun r : connect_answers * input_dev =>
                         Z.testbit (evbit (snd r)) EV_ABS = false)
                 (ans_present ans))
    by (repeat constructor).
  split; [exact H0 |]. split; [exact Hn |]. split; [split; reflexivity |].
  exact (proj1 (proj2 (init_binds_only_abs_devices default_params 9%N ans
                         world_init H0 Hn))).
Defined.

(** *** joystick_drawer_exit *)

Lemma remove_first_perm (p : ptr) (l : list ptr) :
  In p l -> Permutation l (p :: remove_first p l).
Proof.
  induction l as [| k l IH]; [intros [] |].
  cbn [remove_first]. destruct (N.eqb_spec p k) as [-> | Hne].
  - intros _. apply Permutation_refl.
  - intros [E | Hin]; [congruence |].
    eapply Permutation_trans; [apply perm_skip, (IH Hin) | apply perm_swap].
Qed.

Lemma disconnect_all_consistent (hs : list ptr) :
  forall w : world,
    bindings_consistent w ->
    Permutation hs (handle_registered w) ->
    exists w' : world,
      disconnect_all hs w = Some w' /\
      handle_heap w' = [] /\ handle_registered w' = [] /\
      handle_open w' = [] /\
      virtual_mouse w' = virtual_mouse w /\
      virtual_keyboard w' = virtual_keyboard w /\
      dev_heap w' = dev_heap w /\
      dev_registered w' = dev_registered w.
Proof.
  induction hs as [| h hs IH]; intros w Hc Hp.
  - apply Permutation_nil in Hp. destruct Hc as (H1 & H2 & _).
    exists w. cbn [disconnect_all]. rewrite H2, <- H1, Hp.
    rewrite Hp in H1. symmetry in H1. apply map_eq_nil in H1.
    repeat split; assumption.
  - assert (Hin : In h (handle_registered w))
      by (apply (Permutation_in h Hp); now left).
    destruct (disconnect_consistent h w Hc Hin)
      as (w1 & E & Hc1 & Hr1 & Hvm & Hvk & Hdh & Hdr).
    assert (Hp1 : Permutation hs (handle_registered w1)).
    { rewrite Hr1. apply Permutation_cons_inv with (a := h).
      eapply Permutation_trans; [exact Hp | now apply remove_first_perm]. }
    destruct (IH w1 Hc1 Hp1) as (w' & E' & Ha & Hb & Hd & Hvm' & Hvk' & Hdh' &
                                 Hdr').
    exists w'. cbn [disconnect_all]. rewrite E.
    repeat split; try assumption; congruence.
Qed.

Lemma exit_consistent (w : world) :
  bindings_consistent w ->
  exists w' : world,
    joystick_drawer_exit w = Some (tt, w') /\
    handle_heap w' = [] /\ handle_registered w' = [] /\ handle_open w' = [] /\
    virtual_mouse w' = NULL /\ virtual_keyboard w' = NULL /\
    dev_registered w' =
      (let r := if N.eqb (virtual_keyboard w) NULL then dev_registered w
                else remove_first (virtual_keyboard w) (dev_registered w) in
       if N.eqb (virtual_mouse w) NULL then r
       else remove_first (virtual_mouse w) r) /\
    dev_heap w' =
      (let h := if N.eqb (virtual_keyboard w) NULL then dev_heap w
                else heap_free (virtual_keyboard w) (dev_heap w) in
       if N.eqb (virtual_mouse w) NULL then h
       else heap_free (virtual_mouse w) h).
Proof.
  intros Hc.
  destruct (disconnect_all_consistent (rev (handle_registered w)) w Hc
              (Permutation_sym (Permutation_rev _)))
    as (w1 & E & Ha & Hb & Hd & Hvm & Hvk & Hdh & Hdr).
  unfold joystick_drawer_exit, input_unregister_handler. rewrite E.
  rewrite (bind_eq _ _ _ _ _ (unregister_virtual_devices_eq w1)).
  unfold printk, modify.
  eexists. split; [reflexivity |].
  unfold log. cbn. rewrite Ha, Hb, Hd, Hvm, Hvk, Hdr, Hdh.
  repeat split.
Qed.

(** X20. Module unload releases every Binding.  From a world whose Bindings
    are consistent, [joystick_drawer_exit] does not fault; afterwards no
    Binding record is allocated, registered or open, both statics of the
    output devices are NULL, and each output device that was there has been
    unregistered exactly once. *)
Theorem exit_releases_everything (w : world) :
  bindings_consistent w ->
  exists w' : world,
    joystick_drawer_exit w = Some (tt, w') /\
    handle_heap w' = [] /\ handle_registered w' = [] /\ handle_open w' = [] /\
    virtual_mouse w' = NULL /\ virtual_keyboard w' = NULL /\
    dev_registered w' =
      (let r := if N.eqb (virtual_keyboard w) NULL then dev_registered w
                else remove_first (virtual_keyboard w) (dev_registered w) in
       if N.eqb (virtual_mouse w) NULL then r
       else remove_first (virtual_mouse w) r).
Proof.
  intros Hc.
  destruct (exit_consistent w Hc)
    as (w' & E & Ha & Hb & Hd & Hvm & Hvk & Hdr & _).
  exists w'. repeat split; assumption.
Qed.

Lemma exit_releases_everything_witness :
  let loaded :=
    snd (joystick_drawer_init default_params 9%N
           (mk_init_answers (mk_create_answers 1%N 0 2%N 0) 0
              [(mk_connect_answers 7%N 0 0, gamepad)]) world_init) in
  bindings_consistent loaded /\
  exists w' : world,
    joystick_drawer_exit loaded = Some (tt, w') /\
    handle_heap w' = [] /\ handle_registered w' = [] /\ handle_open w' = [] /\
    virtual_mouse w' = NULL /\ virtual_keyboard w' = NULL.
Proof.
  intros loaded.
  assert (Hc : bindings_consistent loaded).
  { unfold bindings_consistent, loaded. vm_compute.
    split; [reflexivity |]. split; [reflexivity |].
    constructor; [| constructor]. eexists. split; reflexivity. }
  split; [exact Hc |].
  destruct (exit_releases_everything loaded Hc)
    as (w' & E & Ha & Hb & Hd & Hvm & Hvk & _).
  exists w'. repeat split; assumption.
Defined.

(** *** From load to unload *)

Lemma run_connects_frame (cfg : params) (handler : ptr)
    (reqs : list (connect_answers * input_dev)) :
  forall w : world,
    bindings_consistent w ->
    bindings_consistent (run_connects cfg handler reqs w) /\
    virtual_mouse (run_connects cfg handler reqs w) = virtual_mouse w /\
    virtual_keyboard (run_connects cfg handler reqs w) = virtual_keyboard w /\
    dev_heap (run_connects cfg handler reqs w) = dev_heap w /\
    dev_registered (run_connects cfg handler reqs w) = dev_registered w.
Proof.
  induction reqs as [| [ans dev] reqs IH]; intros w Hc;
    [cbn [run_connects]; split; [exact Hc | repeat split] |].
  cbn [run_connects].
  destruct (connect_devices_frame cfg ans handler dev w) as (A & B & C & D).
  destruct (IH _ (connect_consistent cfg ans handler dev w Hc))
    as (Hc' & A' & B' & C' & D').
  split; [exact Hc' |]. repeat split; congruence.
Qed.

Lemma run_events_frame (cfg : params) (handle : ptr) (evs : list event) :
  forall w : world,
    exists calls : list call, run_events cfg handle evs w = written calls w.
Proof.
  induction evs as [| e evs IH]; intros w; [now exists [] |].
  cbn [run_events]. rewrite joystick_event_local. cbn [snd].
  destruct (IH (written (event_calls cfg (virtual_mouse w)
                           (virtual_keyboard w) e) w)) as (calls & E).
  rewrite E, <- written_app. eauto.
Qed.

(** X21. From load to unload nothing is left behind.  After a successful
    [joystick_drawer_init] at module load, any sequence of connect callbacks
    (accepted or not, with any answers of the host) and any stream of events,
    [joystick_drawer_exit] does not fault and leaves no Binding record, no
    registered or open handle, no registered device and no device object;
    both device statics are NULL. *)
Theorem load_bind_unload_leaves_nothing (cfg : params) (handler handle : ptr)
    (ans : init_answers) (reqs : list (connect_answers * input_dev))
    (evs : list event) :
  fst (joystick_drawer_init cfg handler ans world_init) = 0 ->
  let w1 := snd (joystick_drawer_init cfg handler ans world_init) in
  let w2 := run_events cfg handle evs (run_connects cfg handler reqs w1) in
  exists w3 : world,
    joystick_drawer_exit w2 = Some (tt, w3) /\
    handle_heap w3 = [] /\ handle_registered w3 = [] /\ handle_open w3 = [] /\
    dev_heap w3 = [] /\ dev_registered w3 = [] /\
    virtual_mouse w3 = NULL /\ virtual_keyboard w3 = NULL.
Proof.
  intros H0. apply init_zero_inv in H0.
  destruct H0 as ((Hm & Hr & Hk & Hrk) & Hh). cbv zeta.
  rewrite (init_succeeds cfg handler ans world_init Hm Hr Hk Hrk Hh).
  cbn [snd].
  rewrite (create_succeeds (ans_create ans) world_init Hm Hr Hk Hrk).
  cbn [snd].
  set (wc := mk_world _ _ _ _ _ _ _ _ _).
  assert (Hwc : bindings_consistent wc)
    by (repeat split; constructor).
  destruct (run_connects_frame cfg handler
              (filter (fun r => Z.testbit (evbit (snd r)) EV_ABS)
                 (ans_present ans)) wc Hwc) as (Hc1 & A1 & B1 & C1 & D1).
  set (w1 := written _ (run_connects cfg handler (filter _ _) wc)).
  assert (Hw1 : bindings_consistent w1 /\
                virtual_mouse w1 = virtual_mouse wc /\
                virtual_keyboard w1 = virtual_keyboard wc /\
                dev_heap w1 = dev_heap wc /\
                dev_registered w1 = dev_registered wc).
  { subst w1. rewrite written_eq.
    split; [apply (consistent_frame _ _ eq_refl eq_refl eq_refl Hc1) |].
    cbn. repeat split; assumption. }
  destruct Hw1 as (Hc2 & A2 & B2 & C2 & D2).
  destruct (run_connects_frame cfg handler reqs w1 Hc2)
    as (Hc3 & A3 & B3 & C3 & D3).
  destruct (run_events_frame cfg handle evs (run_connects cfg handler reqs w1))
    as (calls & E).
  rewrite E.
  assert (Hc4 : bindings_consistent
                  (written calls (run_connects cfg handler reqs w1))).
  { rewrite written_eq.
    apply (consistent_frame _ _ eq_refl eq_refl eq_refl Hc3). }
  destruct (exit_consistent _ Hc4)
    as (w3 & Ex & Ha & Hb & Hd & Hvm & Hvk & Hdr & Hdh).
  exists w3. split; [exact Ex |].
  rewrite written_eq in Hdr, Hdh.
  cbn [virtual_mouse virtual_keyboard dev_registered dev_heap] in Hdr, Hdh.
  rewrite A3, A2, B3, B2, D3, D2 in Hdr. rewrite A3, A2, B3, B2, C3, C2 in Hdh.
  subst wc.
  cbn [virtual_mouse virtual_keyboard dev_registered dev_heap] in Hdr, Hdh.
  apply N.eqb_neq in Hm. apply N.eqb_neq in Hk. rewrite Hm, Hk in Hdr, Hdh.
  cbn [remove_first heap_free] in Hdr, Hdh.
  rewrite !N.eqb_refl in Hdr, Hdh.
  cbn [remove_first heap_free] in Hdr, Hdh.
  rewrite ?N.eqb_refl in Hdr, Hdh.
  repeat split; assumption.
Qed.

Lemma load_bind_unload_leaves_nothing_witness :
  let ans :=
    mk_init_answers (mk_create_answers 1%N 0 2%N 0) 0
      [(mk_connect_answers 7%N 0 0, gamepad)] in
  fst (joystick_drawer_init default_params 9%N ans world_init) = 0 /\
  exists w3 : world,
    joystick_drawer_exit
      (run_events default_params 8%N
         [mk_event EV_ABS ABS_X 160; mk_event EV_KEY BTN_A 1]
         (run_connects default_params 9%N
            [(mk_connect_answers 8%N 0 0, second_gamepad);
             (mk_connect_answers 6%N 0 (-16), gamepad)]
            (snd (joystick_drawer_init default_params 9%N ans world_init))))
    = Some (tt, w3) /\
    handle_heap w3 = [] /\ handle_registered w3 = [] /\ handle_open w3 = [] /\
    dev_heap w3 = [] /\ dev_registered w3 = [] /\
    virtual_mouse w3 = NULL /\ virtual_keyboard w3 = NULL.
Proof.
  intros ans.
  assert (H0 : fst (joystick_drawer_init default_params 9%N ans world_init)
               = 0) by (vm_compute; reflexivity).
  split; [exact H0 |].
  exact (load_bind_unload_leaves_nothing default_params 9%N 8%N ans _ _ H0).
Defined.
